(** * JIRA feature breakdown workflow: a shallow embedding and its properties

    This development embeds [src/jira_breakdown_workflow.py] (the class
    [JiraBreakdownWorkflow] and its event and response models) and proves
    properties of its steps as they are written: request validation, the
    progress events and where the awaited [ctx.send_event] stops a step,
    the persona loop, the placeholder synthesis, the optional creation of
    JIRA items, the summary, and the validation that the runtime applies to
    the class before a run.

    Conventions.
    - A Python [dict] with string keys is an association list in insertion
      order; its keys are pairwise distinct.
    - Python [int] is [Z]; Python [float] is IEEE binary64, i.e. the
      primitive type [float] of the kernel.
    - A coroutine of the workflow is a computation in the monad [M]: it
      reads and writes the workflow [Context], appends to the log of
      observable actions, and either returns a value or raises. *)

From Stdlib Require Import ZArith List Ascii Floats Uint63 Lia.
From stdpp Require Import base option list gmap strings pretty sorting.
Import ListNotations.

Set Warnings "-register-all".

Local Open Scope Z_scope.

(** ** Python values *)

(** The JSON-shaped Python values that travel through the workflow:
    [None], [bool], [int], [str], [list] and [dict] with string keys. *)
Inductive json : Type :=
  | JNull
  | JBool (b : bool)
  | JInt (z : Z)
  | JStr (s : string)
  | JList (l : list json)
  | JObj (m : list (string * json)).

(** A dict in insertion order. *)
Definition pydict (V : Type) : Type := list (string * V).

(** [d.get(k)]: the value of the first (and only) entry with key [k]. *)
Fixpoint dict_get {V} (k : string) (d : pydict V) : option V :=
  match d with
  | [] => None
  | (k', v) :: rest => if String.eqb k k' then Some v else dict_get k rest
  end.

(** [d[k] = v]: overwrite in place when the key exists, append otherwise. *)
Fixpoint dict_set {V} (k : string) (v : V) (d : pydict V) : pydict V :=
  match d with
  | [] => [(k, v)]
  | (k', v') :: rest =>
      if String.eqb k k' then (k, v) :: rest else (k', v') :: dict_set k v rest
  end.

(** [d.get(k, default)]. *)
Definition dict_get_default {V} (k : string) (default : V) (d : pydict V) : V :=
  match dict_get k d with
  | Some v => v
  | None => default
  end.

(** Truth value of a Python object, as tested by [not x] and [if x]. *)
Definition truthy (v : json) : bool :=
  match v with
  | JNull => false
  | JBool b => b
  | JInt z => negb (Z.eqb z 0)
  | JStr s => negb (String.eqb s "")
  | JList l => match l with [] => false | _ => true end
  | JObj m => match m with [] => false | _ => true end
  end.

(** ** Exceptions *)

(** A raised exception: its class name and its message. Only subclasses of
    [Exception] are modelled. *)
Record exception : Type := Exc { exc_class : string; exc_message : string }.

Definition ValueError (msg : string) : exception := Exc "ValueError" msg.
Definition KeyError (key : string) : exception := Exc "KeyError" key.
Definition AttributeError (msg : string) : exception := Exc "AttributeError" msg.
Definition ValidationError (msg : string) : exception := Exc "ValidationError" msg.
Definition TypeError (msg : string) : exception := Exc "TypeError" msg.

(** The error of [llama_index.core.workflow] for a class of steps that is
    not well formed. *)
Definition WorkflowValidationError (msg : string) : exception :=
  Exc "WorkflowValidationError" msg.

(** ** Python arithmetic on floats *)

Definition ZeroDivisionError : exception :=
  Exc "ZeroDivisionError" "division by zero".
Definition float_to_int_error : exception :=
  Exc "OverflowError" "cannot convert float infinity or NaN to integer".

(** [float(z)] for an [int] below 2^53 in magnitude (exactly representable). *)
Definition float_of_Z (z : Z) : float :=
  if Z.ltb z 0 then PrimFloat.opp (PrimFloat.of_uint63 (Uint63.of_Z (- z)))
  else PrimFloat.of_uint63 (Uint63.of_Z z).

(** [a / b] on two [int]s: true division, a correctly rounded binary64;
    raises on a zero divisor. *)
Definition py_truediv (a b : Z) : exception + float :=
  if Z.eqb b 0 then inl ZeroDivisionError
  else inr (PrimFloat.div (float_of_Z a) (float_of_Z b)).

(** [x * n] for a [float] and an [int]: the [int] is converted first. *)
Definition py_mul_int (x : float) (n : Z) : float :=
  PrimFloat.mul x (float_of_Z n).

(** [int(x)] on a [float]: truncation towards zero; raises on an infinity
    or a NaN. *)
Definition py_int (x : float) : exception + Z :=
  match Prim2SF x with
  | S754_zero _ => inr 0
  | S754_finite s m e =>
      let v := match e with
               | Z0 => Zpos m
               | Zpos p => Z.shiftl (Zpos m) (Zpos p)
               | Zneg p => Z.shiftr (Zpos m) (Zpos p)
               end in
      inr (if s then - v else v)
  | S754_infinity _ | S754_nan => inl float_to_int_error
  end.

(** [30 + int((completed / total_agents) * 40)], the progress after
    [completed] of [total_agents] analyses. *)
Definition fanout_progress (completed total_agents : Z) : exception + Z :=
  match py_truediv completed total_agents with
  | inl e => inl e
  | inr q =>
      match py_int (py_mul_int q 40) with
      | inl e => inl e
      | inr n => inr (30 + n)
      end
  end.

(** Whether, for every total from 1 to [bound] and every count up to the
    total, the binary64 computation gives the exact [30 + 40c/t] rounded
    down. *)
Definition fanout_table_ok (bound : nat) : bool :=
  forallb (fun t =>
    forallb (fun c =>
      match fanout_progress (Z.of_nat c) (Z.of_nat t) with
      | inr p => Z.eqb p (30 + 40 * Z.of_nat c / Z.of_nat t)
      | inl _ => false
      end) (seq 0 (S t))) (seq 1 bound).

(** The largest persona table for which the progress values were computed. *)
Definition max_personas : nat := 256.

(** ** Events and response models *)

(** [class JiraBreakdownEvent(Event)]. *)
Record JiraBreakdownEvent : Type := {
  jira_id : string;
  description : option string;
  user_id : option string;
  create_jira_items : bool;
}.

(** [class JiraFetchProgressEvent(Event)]. *)
Record JiraFetchProgressEvent : Type := {
  fetch_stage : string;
  fetch_progress : Z;
  fetch_message : string;
  fetch_jira_id : string;
}.

(** [class BreakdownProgressEvent(Event)]. *)
Record BreakdownProgressEvent : Type := {
  stage : string;
  progress : Z;
  message : string;
  completed_agents : Z;
  total_agents : Z;
}.

(** The two kinds of progress event of the workflow. *)
Inductive progress_event : Type :=
  | FetchProgress (e : JiraFetchProgressEvent)
  | BreakdownProgress (e : BreakdownProgressEvent).

Definition progress_of (e : progress_event) : Z :=
  match e with
  | FetchProgress e => fetch_progress e
  | BreakdownProgress e => progress e
  end.

(** [class JiraItem(BaseModel)]. *)
Record JiraItem : Type := {
  item_type : string;
  title : string;
  item_description : string;
  acceptance_criteria : list string;
  story_points : option Z;
  priority : string;
  components : list string;
  labels : list string;
  parent_epic : option string;
}.

(** ** External collaborators *)

(** What the workflow imports and does not define: the persona table and
    the agent manager of [src.agents], the [json] module, the coercions
    that pydantic applies to a value that is not already of the field's
    type, [repr] and the iteration order of a [set], the clocks, and the
    wording of two messages: the one of the [TypeError] that the
    interpreter raises for [await] applied to [None], and the one of the
    runtime's error for a workflow no step of which returns a [StopEvent].
    Clock readings are indexed by the number of readings made before. *)
Class Collaborators : Type := {
  analysis : Type;
  persona_config : Type;
  get_agent_personas : pydict persona_config;
  analyze_rfe : string -> string -> persona_config -> exception + analysis;
  json_loads : string -> exception + json;
  json_dumps : json -> string;
  coerce_str : json -> option string;
  coerce_bool : json -> option bool;
  py_repr : json -> string;
  repr_component_set : list string -> string;
  loop_time : nat -> float;
  now_isoformat : nat -> string;
  await_none_message : string;
  no_stop_event_message : string;
}.

Section Workflow.
Context `{Collaborators}.

(** [class JiraBreakdownResponse(BaseModel)]. *)
Record JiraBreakdownResponse : Type := {
  original_jira_id : string;
  original_summary : string;
  breakdown_summary : string;
  epics : list JiraItem;
  stories : list JiraItem;
  agent_analyses : pydict analysis;
  created_jira_items : option (list string);
  processing_time : float;
  timestamp : string;
}.

(** ** The workflow context and the log of observable actions *)

(** The values that the steps store in the [Context]. *)
Inductive ctx_value : Type :=
  | CtxDetails (d : pydict json)
  | CtxEvent (e : JiraBreakdownEvent)
  | CtxAnalyses (a : pydict analysis)
  | CtxFloat (x : float).

(** What a step does that can be observed from outside, in order: an event
    queued by [ctx.send_event], a call of [agent_manager.analyze_rfe], a
    line written by [print]. *)
Inductive action : Type :=
  | SendEvent (e : progress_event)
  | Invoke (persona : string)
  | Print (line : string).

Record world : Type := {
  ctx : gmap string ctx_value;
  trace : list action;
  clock_reads : nat;
}.

Definition new_world : world :=
  {| ctx := ∅; trace := []; clock_reads := 0 |}.

(** A coroutine: from a world to a raised exception or a value, and the
    world it leaves. *)
Definition M (A : Type) : Type := world -> (exception + A) * world.

#[global] Instance M_ret : MRet M := fun A a w => (inr a, w).
#[global] Instance M_bind : MBind M := fun A B f m w =>
  match m w with
  | (inl e, w') => (inl e, w')
  | (inr a, w') => f a w'
  end.

Definition raise {A} (e : exception) : M A := fun w => (inl e, w).

Definition lift {A} (r : exception + A) : M A := fun w => (r, w).

Definition log (a : action) : M unit := fun w =>
  (inr tt, {| ctx := ctx w; trace := trace w ++ [a];
              clock_reads := clock_reads w |}).

(** [try: body except Exception as e: handler(e)]: what [body] did before
    it raised is kept. *)
Definition try_except {A} (body : M A) (handler : exception -> M A) : M A :=
  fun w =>
    match body w with
    | (inl e, w') => handler e w'
    | (inr a, w') => (inr a, w')
    end.

(** [ctx.send_event(e)]: a plain method of [Context], not a coroutine. It
    queues the event and returns [None]. *)
Definition ctx_send_event (e : progress_event) : M unit := log (SendEvent e).

(** [await None]: the interpreter raises [TypeError]. *)
Definition await_error : exception := TypeError await_none_message.

Definition await_None {A} : M A := raise await_error.

(** [await ctx.send_event(e)], as every step writes it: the call queues
    the event, and the [await] of its result raises. *)
Definition send_event (e : progress_event) : M unit :=
  ctx_send_event e;;
  await_None.

(** [await ctx.set(key, value)]. *)
Definition ctx_set (key : string) (v : ctx_value) : M unit := fun w =>
  (inr tt, {| ctx := <[key := v]> (ctx w); trace := trace w;
              clock_reads := clock_reads w |}).

(** [await ctx.get(key)]: raises when the key was never set. *)
Definition ctx_get (key : string) : M ctx_value := fun w =>
  match ctx w !! key with
  | Some v => (inr v, w)
  | None => (inl (ValueError ("Key '" +:+ key +:+ "' not found in Context")), w)
  end.

(** [await ctx.get(key, default)]. *)
Definition ctx_get_default (key : string) (default : ctx_value) : M ctx_value :=
  fun w => (inr (from_option id default (ctx w !! key)), w).

(** [asyncio.get_event_loop().time()]. *)
Definition read_loop_time : M float := fun w =>
  (inr (loop_time (clock_reads w)),
   {| ctx := ctx w; trace := trace w; clock_reads := S (clock_reads w) |}).

(** [datetime.now().isoformat()]. *)
Definition read_now_isoformat : M string := fun w =>
  (inr (now_isoformat (clock_reads w)),
   {| ctx := ctx w; trace := trace w; clock_reads := S (clock_reads w) |}).

(** ** Strings *)

Definition newline : string := String "010"%char "".

(** [sep.join(parts)]. *)
Fixpoint str_join (sep : string) (parts : list string) : string :=
  match parts with
  | [] => ""
  | [p] => p
  | p :: rest => p +:+ sep +:+ str_join sep rest
  end.

(** [str(v)], as an f-string interpolates a value. *)
Definition py_str (v : json) : string :=
  match v with
  | JStr s => s
  | JNull => "None"
  | JBool true => "True"
  | JBool false => "False"
  | JInt z => pretty z
  | JList _ | JObj _ => py_repr v
  end.

(** The name of the type of a value, for the message of [AttributeError]. *)
Definition py_type_name (v : json) : string :=
  match v with
  | JNull => "NoneType"
  | JBool _ => "bool"
  | JInt _ => "int"
  | JStr _ => "str"
  | JList _ => "list"
  | JObj _ => "dict"
  end.

(** ** Validation of model fields by pydantic *)

(** A value that already has the field's type is kept; any other value is
    left to pydantic's coercion. *)
Definition pydantic_str (v : json) : option string :=
  match v with
  | JStr s => Some s
  | _ => coerce_str v
  end.

Definition pydantic_optional_str (v : json) : option (option string) :=
  match v with
  | JNull => Some None
  | _ => Some <$> pydantic_str v
  end.

Definition pydantic_bool (v : json) : option bool :=
  match v with
  | JBool b => Some b
  | _ => coerce_bool v
  end.

(** [JiraBreakdownEvent(jira_id=..., description=..., user_id=...,
    create_jira_items=...)]. *)
Definition new_JiraBreakdownEvent (jira_id description user_id create : json)
  : exception + JiraBreakdownEvent :=
  match pydantic_str jira_id, pydantic_optional_str description,
        pydantic_optional_str user_id, pydantic_bool create with
  | Some j, Some d, Some u, Some c =>
      inr {| jira_id := j; description := d; user_id := u;
             create_jira_items := c |}
  | _, _, _, _ => inl (ValidationError "JiraBreakdownEvent")
  end.

(** ** Step 1: [start_jira_breakdown] *)

(** A [StartEvent]: the keyword arguments the run was started with. *)
Definition StartEvent : Type := pydict json.

Definition start_jira_breakdown (ev : StartEvent) : M JiraBreakdownEvent :=
  let input_data := dict_get_default "input" (JObj []) ev in
  input_data ← match input_data with
               | JStr s => lift (json_loads s)
               | _ => mret input_data
               end;
  match input_data with
  | JObj d =>
      let jira_id := dict_get_default "jira_id" (JStr "") d in
      let description := dict_get_default "description" JNull d in
      let user_id := dict_get_default "user_id" JNull d in
      let create_jira_items :=
        dict_get_default "create_jira_items" (JBool false) d in
      if negb (truthy jira_id) then raise (ValueError "jira_id is required")
      else lift (new_JiraBreakdownEvent jira_id description user_id
                   create_jira_items)
  | _ =>
      raise (AttributeError ("'" +:+ py_type_name input_data +:+
                             "' object has no attribute 'get'"))
  end.

(** ** Step 2: [fetch_jira_details] *)

(** [_fetch_jira_via_mcp]: the placeholder for the Atlassian MCP call. *)
Definition _fetch_jira_via_mcp (jira_id : string) : M (pydict json) :=
  mret [ ("id", JStr jira_id);
         ("summary", JStr ("Feature from " +:+ jira_id));
         ("description", JStr "Placeholder JIRA description");
         ("status", JStr "Open");
         ("project", JStr "RHOAIENG");
         ("issue_type", JStr "Story");
         ("priority", JStr "Medium");
         ("assignee", JNull);
         ("reporter", JStr "system");
         ("labels", JList []);
         ("components", JList []) ].

Definition fetch_jira_details (ev : JiraBreakdownEvent)
  : M JiraFetchProgressEvent :=
  send_event (FetchProgress
    {| fetch_stage := "fetching_jira";
       fetch_progress := 10;
       fetch_message := "Fetching details for " +:+ jira_id ev;
       fetch_jira_id := jira_id ev |});;
  jira_details ← _fetch_jira_via_mcp (jira_id ev);
  ctx_set "jira_details" (CtxDetails jira_details);;
  ctx_set "original_event" (CtxEvent ev);;
  mret {| fetch_stage := "jira_fetched";
          fetch_progress := 25;
          fetch_message := "Successfully fetched " +:+ jira_id ev;
          fetch_jira_id := jira_id ev |}.

(** ** Step 3: [analyze_with_agents] *)

(** Reading back a value of the context at the type the steps use it. *)
Definition as_details (v : ctx_value) : M (pydict json) :=
  match v with CtxDetails d => mret d | _ => raise (TypeError "jira_details") end.
Definition as_event (v : ctx_value) : M JiraBreakdownEvent :=
  match v with CtxEvent e => mret e | _ => raise (TypeError "original_event") end.
Definition as_analyses (v : ctx_value) : M (pydict analysis) :=
  match v with CtxAnalyses a => mret a | _ => raise (TypeError "agent_analyses") end.
Definition as_float (v : ctx_value) : M float :=
  match v with CtxFloat x => mret x | _ => raise (TypeError "start_time") end.

(** [d[k]]. *)
Definition dict_getitem {V} (k : string) (d : pydict V) : exception + V :=
  match dict_get k d with
  | Some v => inr v
  | None => inl (KeyError k)
  end.

Definition _prepare_feature_description
    (jira_details : pydict json) (additional_description : option string)
  : M string :=
  id ← lift (dict_getitem "id" jira_details);
  summary ← lift (dict_getitem "summary" jira_details);
  let description_parts :=
    [ "JIRA ID: " +:+ py_str id;
      "Summary: " +:+ py_str summary;
      "Description: " +:+
        py_str (dict_get_default "description" (JStr "No description")
                  jira_details) ] in
  let description_parts :=
    match additional_description with
    | Some a =>
        if negb (String.eqb a "")
        then (description_parts ++ ["Additional Context: " +:+ a])%list
        else description_parts
    | None => description_parts
    end in
  mret (str_join (newline +:+ newline) description_parts).

(** The handler of the loop: [print(f"Error analyzing with {persona}: {e}")]. *)
Definition report_failure (persona : string) (e : exception) : M unit :=
  log (Print ("Error analyzing with " +:+ persona +:+ ": " +:+ exc_message e)).

(** The [for persona, config in agent_personas.items()] loop with its
    [try]/[except Exception]. The locals [agent_analyses] and [completed]
    are threaded through; they are assigned right after the analysis
    returns, and an assignment made before a raise is kept. What follows
    the assignments in the [try] block, the progress arithmetic and the
    awaited [ctx.send_event], is under the same handler. *)
Fixpoint analyze_loop (feature_description : string) (total_agents : Z)
    (items : pydict persona_config)
    (agent_analyses : pydict analysis) (completed : Z)
  : M (pydict analysis * Z) :=
  match items with
  | [] => mret (agent_analyses, completed)
  | (persona, config) :: rest =>
      log (Invoke persona);;
      match analyze_rfe persona feature_description config with
      | inr analysis =>
          let agent_analyses := dict_set persona analysis agent_analyses in
          let completed := completed + 1 in
          try_except
            (progress ← lift (fanout_progress completed total_agents);
             send_event (BreakdownProgress
               {| stage := "agent_analysis";
                  progress := progress;
                  message := "Completed analysis: " +:+ persona;
                  completed_agents := completed;
                  total_agents := total_agents |}))
            (report_failure persona);;
          analyze_loop feature_description total_agents rest
            agent_analyses completed
      | inl e =>
          report_failure persona e;;
          analyze_loop feature_description total_agents rest
            agent_analyses completed
      end
  end.

Definition analyze_with_agents (ev : JiraFetchProgressEvent)
  : M BreakdownProgressEvent :=
  jira_details ← ctx_get "jira_details" ≫= as_details;
  original_event ← ctx_get "original_event" ≫= as_event;
  feature_description ←
    _prepare_feature_description jira_details (description original_event);
  let agent_personas := get_agent_personas in
  let total_agents := Z.of_nat (length agent_personas) in
  send_event (BreakdownProgress
    {| stage := "agent_analysis";
       progress := 30;
       message := "Starting multi-agent analysis";
       completed_agents := 0;
       total_agents := total_agents |});;
  '(agent_analyses, completed) ←
    analyze_loop feature_description total_agents agent_personas [] 0;
  ctx_set "agent_analyses" (CtxAnalyses agent_analyses);;
  mret {| stage := "analysis_complete";
          progress := 70;
          message := "Multi-agent analysis completed";
          completed_agents := completed;
          total_agents := total_agents |}.

(** ** Step 4: [synthesize_breakdown] and its helpers *)

(** [_synthesize_epics_and_stories]: the placeholder breakdown. Fields not
    given in the source take the defaults of [JiraItem]. *)
Definition _synthesize_epics_and_stories
    (jira_details : pydict json) (agent_analyses : pydict analysis)
  : M (list JiraItem * list JiraItem) :=
  let epics :=
    [ {| item_type := "epic";
         title := "Core Feature Implementation";
         item_description :=
           "Main feature implementation based on agent analysis";
         acceptance_criteria := ["Feature works as expected"; "Passes all tests"];
         story_points := None;
         priority := "Medium";
         components := ["backend"; "frontend"];
         labels := ["feature"; "ai-generated"];
         parent_epic := None |} ] in
  let stories :=
    [ {| item_type := "story";
         title := "Backend API Development";
         item_description := "Develop backend APIs for the feature";
         acceptance_criteria := ["API endpoints created"; "Tests pass"];
         story_points := Some 5;
         priority := "Medium";
         components := ["backend"];
         labels := ["backend"; "api"];
         parent_epic := Some "Core Feature Implementation" |};
      {| item_type := "story";
         title := "Frontend UI Implementation";
         item_description := "Create frontend user interface";
         acceptance_criteria := ["UI components created"; "UX requirements met"];
         story_points := Some 3;
         priority := "Medium";
         components := ["frontend"];
         labels := ["frontend"; "ui"];
         parent_epic := Some "Core Feature Implementation" |} ] in
  mret (epics, stories).

(** The identifier made from the number of items created so far:
    [f"RHOAIENG-{1000 + len(created_items)}"]. *)
Definition next_item_id (created_items : list string) : string :=
  "RHOAIENG-" +:+ pretty (1000 + Z.of_nat (length created_items)).

(** One [for item in items: created_items.append(...)] loop. *)
Fixpoint create_each (items : list JiraItem) (created_items : list string)
  : list string :=
  match items with
  | [] => created_items
  | _ :: rest =>
      create_each rest (created_items ++ [next_item_id created_items])%list
  end.

(** [_create_jira_items]: the placeholder for the creation of the items. *)
Definition _create_jira_items (epics stories : list JiraItem)
  : M (list string) :=
  let created_items := [] in
  let created_items := create_each epics created_items in
  let created_items := create_each stories created_items in
  mret created_items.

(** Truth value of an [Optional[int]]. *)
Definition points_truthy (p : option Z) : bool :=
  match p with
  | Some n => negb (Z.eqb n 0)
  | None => false
  end.

(** [sum(xs)]. *)
Definition py_sum (xs : list Z) : Z := fold_left Z.add xs 0.

(** [sum(story.story_points for story in stories if story.story_points)]. *)
Definition total_story_points (stories : list JiraItem) : Z :=
  py_sum (map (fun story => default 0 (story_points story))
            (List.filter (fun story => points_truthy (story_points story))
               stories)).

(** Whitespace for [str.strip] among the ASCII characters. *)
Definition is_py_space (c : ascii) : bool :=
  match c with
  | "009" | "010" | "011" | "012" | "013"
  | "028" | "029" | "030" | "031" | " " => true
  | _ => false
  end%char.

Fixpoint py_lstrip (s : string) : string :=
  match s with
  | String c rest => if is_py_space c then py_lstrip rest else s
  | EmptyString => EmptyString
  end.

(** [s.strip()]. *)
Definition py_strip (s : string) : string :=
  String.rev (py_lstrip (String.rev (py_lstrip s))).

(** [comp for item in epics + stories for comp in item.components]. *)
Definition all_components (epics stories : list JiraItem) : list string :=
  flat_map components (epics ++ stories)%list.

Definition _generate_breakdown_summary (epics stories : list JiraItem)
  : string :=
  let total_story_points := total_story_points stories in
  py_strip
    (newline +:+
     "Feature breakdown completed:" +:+ newline +:+
     "- " +:+ pretty (length epics) +:+ " epic(s) identified" +:+ newline +:+
     "- " +:+ pretty (length stories) +:+ " story/stories created" +:+ newline +:+
     "- Total estimated story points: " +:+ pretty total_story_points +:+ newline +:+
     "- Components involved: " +:+
       repr_component_set (all_components epics stories) +:+ newline).

Definition synthesize_breakdown (ev : BreakdownProgressEvent)
  : M JiraBreakdownResponse :=
  default_start ← read_loop_time;
  start_time ← ctx_get_default "start_time" (CtxFloat default_start) ≫= as_float;
  jira_details ← ctx_get "jira_details" ≫= as_details;
  agent_analyses ← ctx_get "agent_analyses" ≫= as_analyses;
  original_event ← ctx_get "original_event" ≫= as_event;
  '(epics, stories) ← _synthesize_epics_and_stories jira_details agent_analyses;
  created_jira_items ←
    (if create_jira_items original_event
     then (created ← _create_jira_items epics stories; mret (Some created))
     else mret None);
  end_time ← read_loop_time;
  let processing_time := PrimFloat.sub end_time start_time in
  let summary := dict_get_default "summary" (JStr "") jira_details in
  let breakdown_summary := _generate_breakdown_summary epics stories in
  timestamp ← read_now_isoformat;
  match pydantic_str summary with
  | Some original_summary =>
      mret {| original_jira_id := jira_id original_event;
              original_summary := original_summary;
              breakdown_summary := breakdown_summary;
              epics := epics;
              stories := stories;
              agent_analyses := agent_analyses;
              created_jira_items := created_jira_items;
              processing_time := processing_time;
              timestamp := timestamp |}
  | None => raise (ValidationError "JiraBreakdownResponse")
  end.

(** ** The run *)

(** The classes that annotate the steps, and [StopEvent], which the module
    imports and no step names. *)
Inductive annotation : Type :=
  | AStartEvent
  | AStopEvent
  | AJiraBreakdownEvent
  | AJiraFetchProgressEvent
  | ABreakdownProgressEvent
  | AJiraBreakdownResponse.

(** [issubclass(cls, StopEvent)]. *)
Definition is_stop_event (cls : annotation) : bool :=
  match cls with
  | AStopEvent => true
  | _ => false
  end.

(** What [@step] records of a method: the class of the event it accepts
    and the class it is annotated to return. *)
Record step_config : Type := {
  step_name : string;
  accepted_event : annotation;
  return_type : annotation;
}.

(** The four [@step] methods of [JiraBreakdownWorkflow]. *)
Definition workflow_steps : list step_config :=
  [ {| step_name := "start_jira_breakdown";
       accepted_event := AStartEvent;
       return_type := AJiraBreakdownEvent |};
    {| step_name := "fetch_jira_details";
       accepted_event := AJiraBreakdownEvent;
       return_type := AJiraFetchProgressEvent |};
    {| step_name := "analyze_with_agents";
       accepted_event := AJiraFetchProgressEvent;
       return_type := ABreakdownProgressEvent |};
    {| step_name := "synthesize_breakdown";
       accepted_event := ABreakdownProgressEvent;
       return_type := AJiraBreakdownResponse |} ].

(** The first check the runtime makes of a class before it runs any of
    its steps: some step must be annotated to return a [StopEvent]. *)
Definition validate (steps : list step_config) : M unit :=
  if existsb (fun s => is_stop_event (return_type s)) steps
  then mret tt
  else raise (WorkflowValidationError no_stop_event_message).

(** [JiraBreakdownWorkflow().run] on the keyword arguments [ev]: the runtime validates the steps,
    then hands the start event to the step that accepts it and each event
    a step returns to the step annotated to accept its class. *)
Definition run_workflow (ev : StartEvent) : M JiraBreakdownResponse :=
  validate workflow_steps;;
  request ← start_jira_breakdown ev;
  fetched ← fetch_jira_details request;
  analyzed ← analyze_with_agents fetched;
  synthesize_breakdown analyzed.

(** ** Observations on a log *)

(** The progress values of the events of a log, in emission order. *)
Definition progress_values (tr : list action) : list Z :=
  omap (fun a => match a with
                 | SendEvent e => Some (progress_of e)
                 | Invoke _ | Print _ => None
                 end) tr.

(** The personas whose analysis was called, in call order. *)
Definition invoked (tr : list action) : list string :=
  omap (fun a => match a with Invoke p => Some p | _ => None end) tr.

(** The world after more actions were logged. *)
Definition add_trace (tr : list action) (w : world) : world :=
  {| ctx := ctx w; trace := trace w ++ tr; clock_reads := clock_reads w |}.

(** The details the placeholder fetch returns for an identifier. *)
Definition fetched_details (jira_id : string) : pydict json :=
  match _fetch_jira_via_mcp jira_id new_world with
  | (inr d, _) => d
  | (inl _, _) => []
  end.

(** The feature description made of the placeholder record of a request. *)
Definition feature_description_of (request : JiraBreakdownEvent) : string :=
  match _prepare_feature_description (fetched_details (jira_id request))
          (description request) new_world with
  | (inr d, _) => d
  | (inl _, _) => ""
  end.

(** Whether the analysis of a configured persona raises. *)
Definition persona_fails (feature_description : string)
    (item : string * persona_config) : bool :=
  match analyze_rfe item.1 feature_description item.2 with
  | inl _ => true
  | inr _ => false
  end.

(** What the loop leaves in its locals, as functions of the persona
    table. *)
Fixpoint fanout_analyses (feature_description : string)
    (items : pydict persona_config) (agent_analyses : pydict analysis)
  : pydict analysis :=
  match items with
  | [] => agent_analyses
  | (persona, config) :: rest =>
      match analyze_rfe persona feature_description config with
      | inr a =>
          fanout_analyses feature_description rest
            (dict_set persona a agent_analyses)
      | inl _ => fanout_analyses feature_description rest agent_analyses
      end
  end.

Fixpoint fanout_completed (feature_description : string)
    (items : pydict persona_config) (completed : Z) : Z :=
  match items with
  | [] => completed
  | (persona, config) :: rest =>
      match analyze_rfe persona feature_description config with
      | inr _ => fanout_completed feature_description rest (completed + 1)
      | inl _ => fanout_completed feature_description rest completed
      end
  end.

(** The analyses of the personas that did not raise, in table order. *)
Definition successes (feature_description : string)
    (items : pydict persona_config) : pydict analysis :=
  omap (fun item : string * persona_config =>
          match analyze_rfe item.1 feature_description item.2 with
          | inr a => Some (item.1, a)
          | inl _ => None
          end) items.

(** The epics and the stories of the placeholder synthesis. *)
Definition synthesized_epics : list JiraItem :=
  match _synthesize_epics_and_stories [] [] new_world with
  | (inr (epics, _), _) => epics
  | (inl _, _) => []
  end.

Definition synthesized_stories : list JiraItem :=
  match _synthesize_epics_and_stories [] [] new_world with
  | (inr (_, stories), _) => stories
  | (inl _, _) => []
  end.

(** How many times a value occurs in a list of progress values. *)
Definition occurrences (v : Z) (l : list Z) : nat := count_occ Z.eq_dec l v.

(** The identifier the placeholder gives to the item created at position
    [i]. *)
Definition item_id (i : nat) : string :=
  "RHOAIENG-" +:+ pretty (1000 + Z.of_nat i).

(** One identifier per item, those of the epics first, each item at its
    own position, no identifier twice. *)
Definition one_id_per_item (epics stories : list JiraItem) (ids : list string)
  : Prop :=
  length ids = (length epics + length stories)%nat /\
  (forall i epic, epics !! i = Some epic -> ids !! i = Some (item_id i)) /\
  (forall j story, stories !! j = Some story ->
     ids !! (length epics + j)%nat = Some (item_id (length epics + j))) /\
  NoDup ids.

(** A story with another estimate. *)
Definition set_story_points (p : option Z) (story : JiraItem) : JiraItem :=
  {| item_type := item_type story;
     title := title story;
     item_description := item_description story;
     acceptance_criteria := acceptance_criteria story;
     story_points := p;
     priority := priority story;
     components := components story;
     labels := labels story;
     parent_epic := parent_epic story |}.

(** A request rejected with an exception of class [cls], by the start step
    or by the run, the world left as it was. *)
Definition rejected_with (cls : string) (ev : StartEvent) (w : world) : Prop :=
  exists ex : exception,
    (start_jira_breakdown ev w = (inl ex, w) \/
     run_workflow ev w = (inl ex, w)) /\
    exc_class ex = cls.

(** The contract claimed for the issue fetcher, against a tracker in which
    [resolves] tells the identifiers that exist. *)
Definition fetch_fails_when_unresolved (resolves : string -> bool) : Prop :=
  forall (id : string) (w : world),
    resolves id = false ->
    exists (msg : string) (w' : world),
      _fetch_jira_via_mcp id w = (inl (Exc "NotFoundError" msg), w').

End Workflow.

(** ** A reference [json] codec

    [dumps] writes a value the way [json.dumps] does with its default
    separators and [ensure_ascii]; [loads] reads JSON text without
    fractional numbers. A string is a sequence of code points below 256.
    The codec instantiates the collaborators for concrete requests. *)
Module JsonCodec.

Definition JSONDecodeError : exception :=
  Exc "JSONDecodeError" "Expecting value".

Definition hex_digit (n : N) : ascii :=
  match n with
  | 0 => "0" | 1 => "1" | 2 => "2" | 3 => "3" | 4 => "4" | 5 => "5"
  | 6 => "6" | 7 => "7" | 8 => "8" | 9 => "9" | 10 => "a" | 11 => "b"
  | 12 => "c" | 13 => "d" | 14 => "e" | _ => "f"
  end%N%char.

Definition hex_value (c : ascii) : option N :=
  let n := N_of_ascii c in
  if (48 <=? n)%N && (n <=? 57)%N then Some (n - 48)%N
  else if (97 <=? n)%N && (n <=? 102)%N then Some (n - 87)%N
  else if (65 <=? n)%N && (n <=? 70)%N then Some (n - 55)%N
  else None.

(** The escape of one character inside a JSON string. *)
Definition escape_char (c : ascii) : string :=
  match c with
  | "034"%char => String "\" (String "034" "")
  | "\"%char => "\\"
  | "010"%char => "\n"
  | "013"%char => "\r"
  | "009"%char => "\t"
  | "008"%char => "\b"
  | "012"%char => "\f"
  | _ =>
      let n := N_of_ascii c in
      if (32 <=? n)%N && (n <=? 126)%N then String c ""
      else String "\" (String "u" (String "0" (String "0"
             (String (hex_digit (n / 16)) (String (hex_digit (n mod 16)) "")))))
  end.

Fixpoint escape_string (s : string) : string :=
  match s with
  | EmptyString => ""
  | String c rest => escape_char c +:+ escape_string rest
  end.

Definition quote (s : string) : string :=
  String "034" (escape_string s +:+ String "034" "").

Fixpoint dumps (v : json) : string :=
  match v with
  | JNull => "null"
  | JBool true => "true"
  | JBool false => "false"
  | JInt z => pretty z
  | JStr s => quote s
  | JList l => "[" +:+ str_join ", " (map dumps l) +:+ "]"
  | JObj m =>
      "{" +:+ str_join ", "
                (map (fun kv => quote (fst kv) +:+ ": " +:+ dumps (snd kv)) m)
          +:+ "}"
  end.

Definition is_ws (c : ascii) : bool :=
  match c with
  | " " | "009" | "010" | "013" => true
  | _ => false
  end%char.

Fixpoint skip_ws (s : string) : string :=
  match s with
  | String c rest => if is_ws c then skip_ws rest else s
  | EmptyString => EmptyString
  end.

(** The characters of a string literal after its opening quote, up to and
    without the closing quote. [acc] holds the characters read, reversed. *)
Fixpoint parse_string_body (s : string) (acc : string) : option (string * string) :=
  match s with
  | EmptyString => None
  | String "034" rest => Some (String.rev acc, rest)
  | String "\" (String "u" (String a (String b (String c (String d rest))))) =>
      match hex_value a, hex_value b, hex_value c, hex_value d with
      | Some 0%N, Some 0%N, Some h, Some l =>
          parse_string_body rest (String (ascii_of_N (16 * h + l)) acc)
      | _, _, _, _ => None
      end
  | String "\" (String e rest) =>
      match e with
      | "034"%char => parse_string_body rest (String "034" acc)
      | "\"%char => parse_string_body rest (String "\" acc)
      | "/"%char => parse_string_body rest (String "/" acc)
      | "n"%char => parse_string_body rest (String "010" acc)
      | "r"%char => parse_string_body rest (String "013" acc)
      | "t"%char => parse_string_body rest (String "009" acc)
      | "b"%char => parse_string_body rest (String "008" acc)
      | "f"%char => parse_string_body rest (String "012" acc)
      | _ => None
      end
  | String c rest =>
      if (N_of_ascii c <? 32)%N then None
      else parse_string_body rest (String c acc)
  end.

Definition digit_value (c : ascii) : option Z :=
  let n := N_of_ascii c in
  if (48 <=? n)%N && (n <=? 57)%N then Some (Z.of_N (n - 48)) else None.

Fixpoint parse_digits (s : string) (acc : Z) : Z * string :=
  match s with
  | String c rest =>
      match digit_value c with
      | Some d => parse_digits rest (10 * acc + d)
      | None => (acc, s)
      end
  | EmptyString => (acc, s)
  end.

(** An integer literal: no leading zero, no fraction, no exponent. *)
Definition parse_nat_literal (s : string) : option (Z * string) :=
  match s with
  | String c rest =>
      match digit_value c with
      | Some 0 =>
          match rest with
          | String c' _ =>
              match digit_value c' with Some _ => None | None => Some (0, rest) end
          | EmptyString => Some (0, rest)
          end
      | Some d => Some (parse_digits rest d)
      | None => None
      end
  | EmptyString => None
  end.

Definition not_number_tail (s : string) : bool :=
  match s with
  | String c _ =>
      negb (Ascii.eqb c "." || Ascii.eqb c "e" || Ascii.eqb c "E")
  | EmptyString => true
  end.

Definition expect (lit : string) (s : string) : option string :=
  if String.prefix lit s
  then Some (String.substring (String.length lit)
               (String.length s - String.length lit) s)
  else None.

(** The dict of the members of an object literal: a repeated key keeps its
    first position and its last value. *)
Definition dict_of_pairs (pairs : list (string * json)) : pydict json :=
  fold_left (fun d kv => dict_set (fst kv) (snd kv) d) pairs [].

Fixpoint parse_value (fuel : nat) (s : string) : option (json * string) :=
  match fuel with
  | O => None
  | S fuel =>
      match skip_ws s with
      | String "n" _ as t => r ← expect "null" t; Some (JNull, r)
      | String "t" _ as t => r ← expect "true" t; Some (JBool true, r)
      | String "f" _ as t => r ← expect "false" t; Some (JBool false, r)
      | String "034" rest =>
          '(str, r) ← parse_string_body rest ""; Some (JStr str, r)
      | String "-" rest =>
          '(n, r) ← parse_nat_literal rest;
          if not_number_tail r then Some (JInt (- n), r) else None
      | String "[" rest =>
          match skip_ws rest with
          | String "]" r => Some (JList [], r)
          | t => '(l, r) ← parse_elements fuel t; Some (JList l, r)
          end
      | String "{" rest =>
          match skip_ws rest with
          | String "}" r => Some (JObj [], r)
          | t => '(m, r) ← parse_members fuel t; Some (JObj (dict_of_pairs m), r)
          end
      | t =>
          '(n, r) ← parse_nat_literal t;
          if not_number_tail r then Some (JInt n, r) else None
      end
  end
with parse_elements (fuel : nat) (s : string)
  : option (list json * string) :=
  match fuel with
  | S fuel =>
      '(v, r) ← parse_value fuel s;
      match skip_ws r with
      | String "," r' =>
          '(l, r'') ← parse_elements fuel r'; Some (v :: l, r'')
      | String "]" r' => Some ([v], r')
      | _ => None
      end
  | O => None
  end
with parse_members (fuel : nat) (s : string)
  : option (list (string * json) * string) :=
  match fuel with
  | S fuel =>
      match skip_ws s with
      | String "034" rest =>
          '(k, r) ← parse_string_body rest "";
          match skip_ws r with
          | String ":" r' =>
              '(v, r'') ← parse_value fuel r';
              match skip_ws r'' with
              | String "," r3 =>
                  '(m, r4) ← parse_members fuel r3;
                  Some ((k, v) :: m, r4)
              | String "}" r3 => Some ([(k, v)], r3)
              | _ => None
              end
          | _ => None
          end
      | _ => None
      end
  | O => None
  end.

Definition loads (s : string) : exception + json :=
  match parse_value (S (String.length s)) s with
  | Some (v, rest) =>
      match skip_ws rest with
      | EmptyString => inr v
      | _ => inl JSONDecodeError
      end
  | None => inl JSONDecodeError
  end.

End JsonCodec.

(** ** A reference instance of the collaborators *)
Module Demo.

(** The rendering of the set of components: first occurrences, in order. *)
Definition render_components (comps : list string) : string :=
  "[" +:+ str_join ", " (map (fun c => "'" +:+ c +:+ "'") (remove_dups comps))
      +:+ "]".

(** Personas configured by [personas]; those listed in [failing] raise. *)
Definition collaborators (personas : pydict string) (failing : list string)
  : Collaborators :=
  {| analysis := string;
     persona_config := string;
     get_agent_personas := personas;
     analyze_rfe := fun persona feature_description config =>
       if bool_decide (persona ∈ failing)
       then inl (Exc "RuntimeError" "agent unavailable")
       else inr ("Analysis by " +:+ persona +:+ " (" +:+ config +:+ ")");
     json_loads := JsonCodec.loads;
     json_dumps := JsonCodec.dumps;
     coerce_str := fun _ => None;
     coerce_bool := fun _ => None;
     py_repr := JsonCodec.dumps;
     repr_component_set := render_components;
     loop_time := fun n => float_of_Z (Z.of_nat n);
     now_isoformat := fun n => "2025-01-01T00:00:0" +:+ pretty n;
     await_none_message :=
       "object NoneType can't be used in 'await' expression";
     no_stop_event_message :=
       "At least one Event of type StopEvent must be returned by any step." |}.

Definition three_personas : pydict string :=
  [ ("UX_RESEARCHER", "user research");
    ("BACKEND_ENG", "services");
    ("PXE", "customer impact") ].

(** Three personas, one of which fails. *)
Definition one_failing : Collaborators :=
  collaborators three_personas ["BACKEND_ENG"].

(** One persona, which succeeds. *)
Definition single : Collaborators :=
  collaborators [("PXE", "customer impact")] [].

(** The request of [test_jira_breakdown.py]. *)
Definition test_request : pydict json :=
  [ ("jira_id", JStr "RHOAIENG-669");
    ("description",
     JStr "Additional context: This feature should improve ML model deployment experience");
    ("user_id", JStr "test_user");
    ("create_jira_items", JBool false) ].

(** The event the start step makes of the test request. *)
Definition test_event : JiraBreakdownEvent :=
  {| jira_id := "RHOAIENG-669";
     description :=
       Some "Additional context: This feature should improve ML model deployment experience";
     user_id := Some "test_user";
     create_jira_items := false |}.

(** The event of a request that asks for the creation of the items. *)
Definition create_event : JiraBreakdownEvent :=
  {| jira_id := "RHOAIENG-669";
     description := None;
     user_id := None;
     create_jira_items := true |}.

(** A request with an empty identifier. *)
Definition empty_id_request : pydict json :=
  [ ("jira_id", JStr ""); ("create_jira_items", JBool false) ].

(** The event the fetch step is written to return for the test request. *)
Definition fetched_event : JiraFetchProgressEvent :=
  {| fetch_stage := "jira_fetched";
     fetch_progress := 25;
     fetch_message := "Successfully fetched RHOAIENG-669";
     fetch_jira_id := "RHOAIENG-669" |}.

(** An input that is a JSON list. *)
Definition list_input : StartEvent := [("input", JList [JInt 1])].

(** The test request with a key the workflow does not know. *)
Definition extended_request : pydict json :=
  (test_request ++ [("priority", JStr "high")])%list.

(** A request that gives the identifier only. *)
Definition bare_request : pydict json := [("jira_id", JStr "RHOAIENG-669")].

(** The event the start step makes of the bare request. *)
Definition bare_event : JiraBreakdownEvent :=
  {| jira_id := "RHOAIENG-669";
     description := None;
     user_id := None;
     create_jira_items := false |}.

(** A world whose context holds what the fetch step is written to
    store for the test request: the placeholder record and the request. *)
Definition analysis_context (C : Collaborators) : @world C :=
  {| ctx := <["original_event" := CtxEvent test_event]>
              (<["jira_details" :=
                   CtxDetails (@fetched_details C "RHOAIENG-669")]> ∅);
     trace := [];
     clock_reads := 0 |}.

(** A world whose context holds the placeholder record of the request
    [e], the request and the analyses [a]. *)
Definition synthesis_context (C : Collaborators) (e : JiraBreakdownEvent)
    (a : pydict (@analysis C)) : @world C :=
  {| ctx := <["agent_analyses" := CtxAnalyses a]>
              (<["original_event" := CtxEvent e]>
                 (<["jira_details" :=
                      CtxDetails (@fetched_details C (jira_id e))]> ∅));
     trace := [];
     clock_reads := 0 |}.

(** The event the analysis step is written to return. *)
Definition analyzed_event : BreakdownProgressEvent :=
  {| stage := "analysis_complete";
     progress := 70;
     message := "Multi-agent analysis completed";
     completed_agents := 1;
     total_agents := 1 |}.

(** A world whose context holds details [d], the test request and the
    analyses [a], as if left by earlier steps. *)
Definition stored_world (C : Collaborators) (d : pydict json)
    (a : pydict (@analysis C)) : @world C :=
  {| ctx := <["agent_analyses" := CtxAnalyses a]>
              (<["original_event" := CtxEvent test_event]>
                 (<["jira_details" := CtxDetails d]> ∅));
     trace := [];
     clock_reads := 0 |}.

(** Details without a summary, and details without an identifier. *)
Definition details_without_summary : pydict json :=
  [("id", JStr "RHOAIENG-669")].

Definition details_without_id : pydict json :=
  [("summary", JStr "Feature from RHOAIENG-669")].

(** Details without a description. *)
Definition details_without_description : pydict json :=
  [("id", JStr "RHOAIENG-669"); ("summary", JStr "Serving runtime")].

End Demo.

(** ** More observations *)
Section Observations.
Context `{Collaborators}.

(** The value the start step works on: the [input] field itself, or what
    [json.loads] makes of it when it is a [str]. *)
Definition decodes_to (ev : StartEvent) (v : json) : Prop :=
  (dict_get_default "input" (JObj []) ev = v /\ forall s, v <> JStr s) \/
  (exists s, dict_get_default "input" (JObj []) ev = JStr s /\
             json_loads s = inr v).

(** Two request dicts with the same four fields the start step reads. *)
Definition same_request_fields (d d' : pydict json) : Prop :=
  dict_get "jira_id" d = dict_get "jira_id" d' /\
  dict_get "description" d = dict_get "description" d' /\
  dict_get "user_id" d = dict_get "user_id" d' /\
  dict_get "create_jira_items" d = dict_get "create_jira_items" d'.

(** The events sent with [ctx.send_event], in order. *)
Definition sent_events (tr : list action) : list progress_event :=
  omap (fun a => match a with SendEvent e => Some e | _ => None end) tr.

(** The lines written by [print], in order. *)
Definition printed (tr : list action) : list string :=
  omap (fun a => match a with Print l => Some l | _ => None end) tr.

(** The first event of the analysis step. *)
Definition analysis_started (total : Z) : progress_event :=
  BreakdownProgress
    {| stage := "agent_analysis";
       progress := 30;
       message := "Starting multi-agent analysis";
       completed_agents := 0;
       total_agents := total |}.

(** A coroutine that, run in any world, leaves a world related to it by
    [R], whether it returns or raises. *)
Definition keeps {A} (R : world -> world -> Prop) (m : M A) : Prop :=
  forall w, R w (m w).2.

(** The log only grew and no key of the context was removed. *)
Definition extends (w w' : world) : Prop :=
  trace w `prefix_of` trace w' /\ dom (ctx w) ⊆ dom (ctx w').

(** No clock was read. *)
Definition same_clock (w w' : world) : Prop :=
  clock_reads w' = clock_reads w.

(** The response of the synthesis for request [e], stored analyses [a] and
    stored summary [s], when processing started at [start_time] and the
    first clock reading of the step has index [n]. *)
Definition response_at (e : JiraBreakdownEvent) (a : pydict analysis)
    (s : string) (start_time : float) (n : nat) : JiraBreakdownResponse :=
  {| original_jira_id := jira_id e;
     original_summary := s;
     breakdown_summary :=
       _generate_breakdown_summary synthesized_epics synthesized_stories;
     epics := synthesized_epics;
     stories := synthesized_stories;
     agent_analyses := a;
     created_jira_items :=
       if create_jira_items e
       then Some (create_each synthesized_stories
                    (create_each synthesized_epics []))
       else None;
     processing_time := PrimFloat.sub (loop_time (S n)) start_time;
     timestamp := now_isoformat (S (S n)) |}.

(** The start of processing the synthesis uses in world [w]: the value
    stored under [start_time], or else its first clock reading. *)
Definition start_time_in (w : world) (x : float) : Prop :=
  (ctx w !! "start_time" = None /\ x = loop_time (clock_reads w)) \/
  ctx w !! "start_time" = Some (CtxFloat x).

(** A coroutine that, run in any world, reads the clock at most [k]
    times, whether it returns or raises. *)
Definition reads_at_most {A} (k : nat) (m : M A) : Prop :=
  forall w, (clock_reads w <= clock_reads (m w).2 <= clock_reads w + k)%nat.

End Observations.

(** * Properties *)

(** ** The progress arithmetic *)

Lemma fanout_table_sound (bound : nat) (c t : Z) :
  fanout_table_ok bound = true ->
  1 <= t <= Z.of_nat bound -> 0 <= c <= t ->
  fanout_progress c t = inr (30 + 40 * c / t).
Proof.
  unfold fanout_table_ok. intros Htab Ht Hc.
  rewrite forallb_forall in Htab.
  specialize (Htab (Z.to_nat t)).
  rewrite forallb_forall in Htab.
  specialize (Htab ltac:(apply in_seq; lia) (Z.to_nat c) ltac:(apply in_seq; lia)).
  rewrite !Z2Nat.id in Htab by lia.
  destruct (fanout_progress c t) as [e|p]; [discriminate|].
  apply Z.eqb_eq in Htab. by subst.
Qed.

Lemma fanout_table_256 : fanout_table_ok max_personas = true.
Proof. vm_compute. reflexivity. Qed.

Lemma fanout_progress_exact (c t : Z) :
  1 <= t <= Z.of_nat max_personas -> 0 <= c <= t ->
  fanout_progress c t = inr (30 + 40 * c / t).
Proof. apply fanout_table_sound, fanout_table_256. Qed.

Section Properties.
Context `{Collaborators}.

(** ** Running coroutines *)

Lemma add_trace_nil (w : world) : add_trace [] w = w.
Proof. destruct w. unfold add_trace. simpl. by rewrite app_nil_r. Qed.

Lemma add_trace_app (tr1 tr2 : list action) (w : world) :
  add_trace tr2 (add_trace tr1 w) = add_trace (tr1 ++ tr2) w.
Proof. unfold add_trace. simpl. by rewrite app_assoc. Qed.

Lemma log_run (a : action) (w : world) : log a w = (inr tt, add_trace [a] w).
Proof. reflexivity. Qed.

Lemma bind_run {A B} (m : M A) (f : A -> M B) (w : world) :
  (m ≫= f) w = match m w with
               | (inl e, w') => (inl e, w')
               | (inr a, w') => f a w'
               end.
Proof. reflexivity. Qed.

Lemma ret_run {A} (a : A) (w : world) : (mret a : M A) w = (inr a, w).
Proof. reflexivity. Qed.

Lemma bind_inv {A B} (m : M A) (f : A -> M B) (w w' : world) (b : B) :
  (m ≫= f) w = (inr b, w') ->
  exists a w1, m w = (inr a, w1) /\ f a w1 = (inr b, w').
Proof.
  rewrite bind_run. destruct (m w) as [[e|a] w1]; [done|]. by exists a, w1.
Qed.

Lemma try_except_run {A} (body : M A) (handler : exception -> M A)
    (w : world) :
  try_except body handler w =
  match body w with
  | (inl e, w') => handler e w'
  | (inr a, w') => (inr a, w')
  end.
Proof. reflexivity. Qed.

(** The awaited [send_event] queues its event and raises. *)
Lemma send_event_run (e : progress_event) (w : world) :
  send_event e w = (inl await_error, add_trace [SendEvent e] w).
Proof. reflexivity. Qed.

Lemma invoked_app (tr1 tr2 : list action) :
  invoked (tr1 ++ tr2) = invoked tr1 ++ invoked tr2.
Proof. apply omap_app. Qed.

Lemma printed_app (tr1 tr2 : list action) :
  printed (tr1 ++ tr2) = printed tr1 ++ printed tr2.
Proof. apply omap_app. Qed.

(** ** Dicts *)

Lemma dict_set_fresh {V} (k : string) (v : V) (d : pydict V) :
  k ∉ d.*1 -> dict_set k v d = d ++ [(k, v)].
Proof.
  induction d as [|[k' v'] d IH]; simpl; [done|].
  rewrite not_elem_of_cons. intros [Hne Hk].
  destruct (String.eqb_spec k k') as [->|_]; [done|]. by rewrite IH.
Qed.

Lemma dict_get_set_eq {V} (k : string) (v : V) (d : pydict V) :
  dict_get k (dict_set k v d) = Some v.
Proof.
  induction d as [|[k' v'] d IH]; simpl.
  - by rewrite String.eqb_refl.
  - destruct (String.eqb_spec k k') as [->|Hne]; simpl.
    + by rewrite String.eqb_refl.
    + by destruct (String.eqb_spec k k').
Qed.

Lemma dict_get_set_ne {V} (k k' : string) (v : V) (d : pydict V) :
  k <> k' -> dict_get k' (dict_set k v d) = dict_get k' d.
Proof.
  intros Hne. induction d as [|[k0 v0] d IH]; simpl.
  - destruct (String.eqb_spec k' k); [congruence|done].
  - destruct (String.eqb_spec k k0) as [->|Hk]; simpl.
    + destruct (String.eqb_spec k' k0); [congruence|done].
    + by destruct (String.eqb_spec k' k0).
Qed.

(** ** The steps, one by one *)

Lemma start_keeps_world (ev : StartEvent) (w w' : world)
    (r : exception + JiraBreakdownEvent) :
  start_jira_breakdown ev w = (r, w') -> w' = w.
Proof.
  unfold start_jira_breakdown. rewrite bind_run.
  destruct (dict_get_default "input" (JObj []) ev) as [| | |s| |d] eqn:Hin;
    try (rewrite ret_run; unfold raise; congruence).
  - unfold lift. destruct (json_loads s) as [e|[| | | | |d]];
      try (unfold raise; congruence).
    destruct (negb _); unfold raise, lift; congruence.
  - rewrite ret_run. destruct (negb _); unfold raise, lift; congruence.
Qed.

(** The fetch step stops at its first statement: the event is queued, the
    [await] raises, and neither the fetch nor the two [ctx.set] run. *)
Lemma fetch_jira_details_run (e : JiraBreakdownEvent) (w : world) :
  fetch_jira_details e w =
  (inl await_error,
   add_trace [SendEvent (FetchProgress
                {| fetch_stage := "fetching_jira";
                   fetch_progress := 10;
                   fetch_message := "Fetching details for " +:+ jira_id e;
                   fetch_jira_id := jira_id e |})] w).
Proof. reflexivity. Qed.

Lemma prepare_feature_description_on (d : pydict json) (a : option string)
    (w : world) :
  _prepare_feature_description d a w =
  (match dict_get "id" d, dict_get "summary" d with
   | None, _ => inl (KeyError "id")
   | Some _, None => inl (KeyError "summary")
   | Some id, Some summary =>
       let parts :=
         [ "JIRA ID: " +:+ py_str id;
           "Summary: " +:+ py_str summary;
           "Description: " +:+
             py_str (dict_get_default "description" (JStr "No description") d) ] in
       inr (str_join (newline +:+ newline)
              match a with
              | Some x =>
                  if negb (String.eqb x "")
                  then parts ++ ["Additional Context: " +:+ x]
                  else parts
              | None => parts
              end)
   end, w).
Proof.
  unfold _prepare_feature_description, dict_getitem.
  rewrite bind_run. unfold lift at 1.
  destruct (dict_get "id" d) as [id|]; [|done].
  rewrite bind_run. unfold lift at 1.
  destruct (dict_get "summary" d) as [summary|]; [|done].
  by rewrite ret_run.
Qed.

(** The analysis step, once the feature description is made, stops at its
    first [send_event]: the loop over the personas is not entered. *)
Lemma analyze_with_agents_run (fetched : JiraFetchProgressEvent)
    (e : JiraBreakdownEvent) (d : pydict json) (w : world) :
  ctx w !! "jira_details" = Some (CtxDetails d) ->
  ctx w !! "original_event" = Some (CtxEvent e) ->
  is_Some (dict_get "id" d) -> is_Some (dict_get "summary" d) ->
  analyze_with_agents fetched w =
  (inl await_error,
   add_trace
     [SendEvent (analysis_started (Z.of_nat (length get_agent_personas)))] w).
Proof.
  intros Hd He [id Hid] [summary Hsum]. unfold analyze_with_agents.
  rewrite !bind_run. unfold ctx_get at 1. rewrite Hd. simpl.
  rewrite !bind_run. unfold ctx_get at 1. rewrite He. simpl.
  rewrite bind_run, prepare_feature_description_on, Hid, Hsum.
  reflexivity.
Qed.

Lemma synthesize_epics_and_stories_run (d : pydict json)
    (a : pydict analysis) (w : world) :
  _synthesize_epics_and_stories d a w =
  (inr (synthesized_epics, synthesized_stories), w).
Proof. reflexivity. Qed.

Lemma create_jira_items_run (epics stories : list JiraItem) (w : world) :
  _create_jira_items epics stories w =
  (inr (create_each stories (create_each epics [])), w).
Proof. reflexivity. Qed.

Lemma start_time_in_run (w : world) (x : float) :
  start_time_in w x ->
  (ctx_get_default "start_time" (CtxFloat (loop_time (clock_reads w)))
     ≫= as_float)
    {| ctx := ctx w; trace := trace w; clock_reads := S (clock_reads w) |}
  = (inr x,
     {| ctx := ctx w; trace := trace w; clock_reads := S (clock_reads w) |}).
Proof.
  intros Hx. rewrite bind_run. unfold ctx_get_default. cbn [ctx].
  by destruct Hx as [[-> ->] | ->].
Qed.

Lemma synthesize_breakdown_on (ev : BreakdownProgressEvent)
    (e : JiraBreakdownEvent) (d : pydict json) (a : pydict analysis)
    (w : world) (x : float) :
  start_time_in w x ->
  ctx w !! "jira_details" = Some (CtxDetails d) ->
  ctx w !! "agent_analyses" = Some (CtxAnalyses a) ->
  ctx w !! "original_event" = Some (CtxEvent e) ->
  synthesize_breakdown ev w =
  (match pydantic_str (dict_get_default "summary" (JStr "") d) with
   | Some s => inr (response_at e a s x (clock_reads w))
   | None => inl (ValidationError "JiraBreakdownResponse")
   end,
   {| ctx := ctx w; trace := trace w; clock_reads := 3 + clock_reads w |}).
Proof.
  intros Hx Hd Ha He. unfold synthesize_breakdown.
  rewrite bind_run. unfold read_loop_time at 1.
  rewrite bind_run, (start_time_in_run w x Hx).
  rewrite !bind_run. unfold ctx_get at 1. cbn [ctx]. rewrite Hd.
  cbn [as_details]. rewrite ret_run.
  rewrite !bind_run. unfold ctx_get at 1. cbn [ctx]. rewrite Ha.
  cbn [as_analyses]. rewrite ret_run.
  rewrite !bind_run. unfold ctx_get at 1. cbn [ctx]. rewrite He.
  cbn [as_event]. rewrite ret_run.
  rewrite bind_run, synthesize_epics_and_stories_run.
  unfold response_at.
  destruct (create_jira_items e);
    destruct (pydantic_str (dict_get_default "summary" (JStr "") d));
    reflexivity.
Qed.

(** Reading the context back: the value is there, at its type. *)
Lemma ctx_get_as_details_inv (k : string) (d : pydict json) (w w' : world) :
  (ctx_get k ≫= as_details) w = (inr d, w') ->
  w' = w /\ ctx w !! k = Some (CtxDetails d).
Proof.
  rewrite bind_run. unfold ctx_get.
  destruct (ctx w !! k) as [[| | |]|]; simpl; rewrite ?ret_run;
    intros Heq; by simplify_eq.
Qed.

Lemma ctx_get_as_event_inv (k : string) (e : JiraBreakdownEvent)
    (w w' : world) :
  (ctx_get k ≫= as_event) w = (inr e, w') ->
  w' = w /\ ctx w !! k = Some (CtxEvent e).
Proof.
  rewrite bind_run. unfold ctx_get.
  destruct (ctx w !! k) as [[| | |]|]; simpl; rewrite ?ret_run;
    intros Heq; by simplify_eq.
Qed.

Lemma ctx_get_as_analyses_inv (k : string) (a : pydict analysis)
    (w w' : world) :
  (ctx_get k ≫= as_analyses) w = (inr a, w') ->
  w' = w /\ ctx w !! k = Some (CtxAnalyses a).
Proof.
  rewrite bind_run. unfold ctx_get.
  destruct (ctx w !! k) as [[| | |]|]; simpl; rewrite ?ret_run;
    intros Heq; by simplify_eq.
Qed.

Lemma start_time_inv (w w' : world) (x : float) :
  (ctx_get_default "start_time" (CtxFloat (loop_time (clock_reads w)))
     ≫= as_float)
    {| ctx := ctx w; trace := trace w; clock_reads := S (clock_reads w) |}
  = (inr x, w') ->
  w' = {| ctx := ctx w; trace := trace w; clock_reads := S (clock_reads w) |}
  /\ start_time_in w x.
Proof.
  rewrite bind_run. unfold ctx_get_default, start_time_in. cbn [ctx].
  destruct (ctx w !! "start_time") as [[| | |y]|]; simpl; rewrite ?ret_run;
    intros Heq; simplify_eq; split; by eauto.
Qed.

(** Every response the synthesis step returns is made of the placeholder
    breakdown, of the analyses and of the request that the context held. *)
Lemma synthesize_breakdown_inv (ev : BreakdownProgressEvent) (w w' : world)
    (resp : JiraBreakdownResponse) :
  synthesize_breakdown ev w = (inr resp, w') ->
  exists (e : JiraBreakdownEvent) (a : pydict analysis),
    ctx w !! "original_event" = Some (CtxEvent e) /\
    ctx w !! "agent_analyses" = Some (CtxAnalyses a) /\
    epics resp = synthesized_epics /\
    stories resp = synthesized_stories /\
    agent_analyses resp = a /\
    original_jira_id resp = jira_id e /\
    created_jira_items resp =
      (if create_jira_items e
       then Some (create_each synthesized_stories
                    (create_each synthesized_epics []))
       else None).
Proof.
  intros Hrun. pose proof Hrun as Hsteps. unfold synthesize_breakdown in Hsteps.
  apply bind_inv in Hsteps as (t0 & w1 & Ht0 & Hsteps).
  unfold read_loop_time in Ht0. injection Ht0 as <- <-.
  apply bind_inv in Hsteps as (x & w2 & Hx & Hsteps).
  apply start_time_inv in Hx as [-> Hx].
  apply bind_inv in Hsteps as (d & w3 & Hd & Hsteps).
  apply ctx_get_as_details_inv in Hd as [-> Hd].
  apply bind_inv in Hsteps as (a & w4 & Ha & Hsteps).
  apply ctx_get_as_analyses_inv in Ha as [-> Ha].
  apply bind_inv in Hsteps as (e & w5 & He & _).
  apply ctx_get_as_event_inv in He as [-> He].
  cbn [ctx] in Hd, Ha, He.
  rewrite (synthesize_breakdown_on ev e d a w x Hx Hd Ha He) in Hrun.
  exists e, a. split; [done|]. split; [done|].
  destruct (pydantic_str (dict_get_default "summary" (JStr "") d));
    [|done].
  injection Hrun as <- _. done.
Qed.

(** The run is refused before any step: no step is annotated to return a
    [StopEvent]. *)
Lemma run_workflow_refused (ev : StartEvent) (w : world) :
  run_workflow ev w =
  (inl (WorkflowValidationError no_stop_event_message), w).
Proof. reflexivity. Qed.

(** ** What the persona loop computes *)

Lemma length_successes (desc : string) (items : pydict persona_config) :
  length (successes desc items) =
  (length items - length (List.filter (persona_fails desc) items))%nat.
Proof.
  induction items as [|[p cfg] rest IH]; [done|].
  unfold persona_fails in *. simpl.
  pose proof (filter_length_le
    (fun item : string * persona_config =>
       match analyze_rfe item.1 desc item.2 with
       | inl _ => true | inr _ => false end) rest) as Hle.
  destruct (analyze_rfe p desc cfg); simpl; rewrite IH; lia.
Qed.

Lemma successes_keys_sublist (desc : string) (items : pydict persona_config) :
  (successes desc items).*1 `sublist_of` items.*1.
Proof.
  induction items as [|[q cfg] rest IH]; simpl; [done|].
  destruct (analyze_rfe q desc cfg); simpl.
  - by apply sublist_cons.
  - by apply sublist_skip.
Qed.

Lemma fanout_analyses_fresh (desc : string) (items : pydict persona_config) :
  forall aa : pydict analysis,
    NoDup (aa.*1 ++ items.*1) ->
    fanout_analyses desc items aa = aa ++ successes desc items.
Proof.
  induction items as [|[p cfg] rest IH]; intros aa Hnd; simpl.
  - by rewrite app_nil_r.
  - simpl in Hnd. apply NoDup_app in Hnd as (Haa & Hdisj & Hnd).
    apply NoDup_cons in Hnd as [Hp Hrest].
    assert (p ∉ aa.*1) as Hfresh.
    { intros Hin. apply (Hdisj p Hin). apply elem_of_cons; by left. }
    destruct (analyze_rfe p desc cfg) as [e|a].
    + apply IH. apply NoDup_app. split_and!; [done| |done].
      intros x Hx Hx'. apply (Hdisj x Hx). by apply elem_of_cons; right.
    + rewrite IH.
      * rewrite dict_set_fresh by done. by rewrite <- app_assoc.
      * rewrite dict_set_fresh by done. rewrite fmap_app. simpl.
        rewrite <- app_assoc. simpl. apply NoDup_app. split_and!; [done| |].
        -- intros x Hx Hx'. apply (Hdisj x Hx). done.
        -- by apply NoDup_cons.
Qed.

Lemma fanout_completed_count (desc : string) (items : pydict persona_config) :
  forall c : Z,
    fanout_completed desc items c = c + Z.of_nat (length (successes desc items)).
Proof.
  induction items as [|[p cfg] rest IH]; intros c; simpl; [lia|].
  destruct (analyze_rfe p desc cfg); rewrite IH; simpl; lia.
Qed.

(** One pass of the [try] block after a successful analysis: it ends in the
    handler, with one line printed and at most the event queued before. *)
Lemma try_send_run (persona : string) (completed total_agents : Z)
    (w : world) :
  exists (tr : list action) (line : string),
    try_except
      (progress ← lift (fanout_progress completed total_agents);
       send_event (BreakdownProgress
         {| stage := "agent_analysis";
            progress := progress;
            message := "Completed analysis: " +:+ persona;
            completed_agents := completed;
            total_agents := total_agents |}))
      (report_failure persona) w
    = (inr tt, add_trace (tr ++ [Print line]) w) /\
    invoked tr = [] /\ printed tr = [].
Proof.
  rewrite try_except_run, bind_run. unfold lift at 1.
  destruct (fanout_progress completed total_agents) as [e|p].
  - eexists [], _. split; [reflexivity|done].
  - rewrite send_event_run. unfold report_failure.
    rewrite log_run, add_trace_app. by eexists [_], _.
Qed.

(** The loop never raises: it calls every persona, keeps the analyses of
    those that returned, and ends every pass in the handler. *)
Lemma analyze_loop_run (desc : string) (total : Z)
    (items : pydict persona_config) :
  forall (aa : pydict analysis) (c : Z) (w : world),
    exists tr : list action,
      analyze_loop desc total items aa c w =
        (inr (fanout_analyses desc items aa, fanout_completed desc items c),
         add_trace tr w) /\
      invoked tr = items.*1 /\
      length (printed tr) = length items.
Proof.
  induction items as [|[p cfg] rest IH]; intros aa c w.
  - exists []. by rewrite add_trace_nil.
  - cbn [analyze_loop fanout_analyses fanout_completed].
    rewrite bind_run, log_run.
    destruct (analyze_rfe p desc cfg) as [e|a].
    + rewrite bind_run. unfold report_failure. rewrite log_run, add_trace_app.
      destruct (IH aa c (add_trace ([Invoke p] ++ [Print
        ("Error analyzing with " +:+ p +:+ ": " +:+ exc_message e)]) w))
        as (tr & -> & Hinv & Hpr).
      eexists. rewrite add_trace_app. split; [reflexivity|].
      rewrite invoked_app, printed_app, length_app, Hinv, Hpr. done.
    + destruct (try_send_run p (c + 1) total (add_trace [Invoke p] w))
        as (tr1 & line & Htry & Hinv1 & Hpr1).
      rewrite bind_run, Htry, add_trace_app.
      destruct (IH (dict_set p a aa) (c + 1)
                  (add_trace ([Invoke p] ++ tr1 ++ [Print line]) w))
        as (tr & -> & Hinv & Hpr).
      eexists. rewrite add_trace_app. split; [reflexivity|].
      rewrite !invoked_app, !printed_app, !length_app, Hinv, Hpr, Hinv1, Hpr1.
      done.
Qed.

(** ** The start step *)

(** What the start step does once the input is decoded to a dict. *)
Lemma start_jira_breakdown_decoded (ev : StartEvent) (d : pydict json) (w : world) :
  (dict_get_default "input" (JObj []) ev = JObj d \/
   exists s, dict_get_default "input" (JObj []) ev = JStr s /\
             json_loads s = inr (JObj d)) ->
  start_jira_breakdown ev w =
  (if negb (truthy (dict_get_default "jira_id" (JStr "") d))
   then inl (ValueError "jira_id is required")
   else new_JiraBreakdownEvent
          (dict_get_default "jira_id" (JStr "") d)
          (dict_get_default "description" JNull d)
          (dict_get_default "user_id" JNull d)
          (dict_get_default "create_jira_items" (JBool false) d), w).
Proof.
  unfold start_jira_breakdown. rewrite bind_run.
  intros [-> | (s & -> & Hs)].
  - rewrite ret_run. by destruct (negb _).
  - unfold lift at 1. rewrite Hs. by destruct (negb _).
Qed.

Lemma start_jira_breakdown_on (ev : StartEvent) (v : json) (w : world) :
  decodes_to ev v ->
  start_jira_breakdown ev w =
  match v with
  | JObj d =>
      (if negb (truthy (dict_get_default "jira_id" (JStr "") d))
       then inl (ValueError "jira_id is required")
       else new_JiraBreakdownEvent
              (dict_get_default "jira_id" (JStr "") d)
              (dict_get_default "description" JNull d)
              (dict_get_default "user_id" JNull d)
              (dict_get_default "create_jira_items" (JBool false) d), w)
  | _ => (inl (AttributeError ("'" +:+ py_type_name v +:+
                               "' object has no attribute 'get'")), w)
  end.
Proof.
  unfold start_jira_breakdown. rewrite bind_run.
  intros [[-> Hns] | (s & -> & Hs)].
  - destruct v as [| | |s| |d]; try reflexivity.
    + by destruct (Hns s).
    + rewrite ret_run. by destruct (negb _).
  - unfold lift at 1. rewrite Hs.
    destruct v as [| | | | |d]; try reflexivity. by destruct (negb _).
Qed.

(** C2, as the code has it. A request whose input, given as a dict or as
    JSON text of a dict, has no [jira_id] or an empty one is rejected by
    the start step with the [ValueError] "jira_id is required", and the
    world is the one the step started in: no event was queued, nothing was
    stored in the context, no later step has run. *)
Theorem missing_jira_id_rejected (ev : StartEvent) (d : pydict json) (w : world) :
  (dict_get_default "input" (JObj []) ev = JObj d \/
   exists s, dict_get_default "input" (JObj []) ev = JStr s /\
             json_loads s = inr (JObj d)) ->
  (dict_get "jira_id" d = None \/ dict_get "jira_id" d = Some (JStr "")) ->
  start_jira_breakdown ev w = (inl (ValueError "jira_id is required"), w).
Proof.
  intros Hin Hid.
  rewrite (start_jira_breakdown_decoded ev d w Hin).
  unfold dict_get_default. by destruct Hid as [-> | ->].
Qed.

(** C10. The start step takes the [input] field as a dict or as its JSON
    text: when the [json] module reads back what it wrote for the request
    dict [d], the text [json.dumps(d)] and [d] itself give the same
    outcome; and when [d] holds a non-empty string identifier, a
    description and a user that are strings, [None] or absent, and a
    creation flag that is a boolean or absent, both forms are accepted,
    with the one event that carries these four values. *)
Theorem string_input_same_as_object (ev : StartEvent) (d : pydict json) (w : world) :
  json_loads (json_dumps (JObj d)) = inr (JObj d) ->
  start_jira_breakdown (dict_set "input" (JStr (json_dumps (JObj d))) ev) w =
  start_jira_breakdown (dict_set "input" (JObj d) ev) w /\
  forall (j : string) (desc user : option string) (create : bool),
    dict_get "jira_id" d = Some (JStr j) -> j <> "" ->
    dict_get_default "description" JNull d = from_option JStr JNull desc ->
    dict_get_default "user_id" JNull d = from_option JStr JNull user ->
    dict_get_default "create_jira_items" (JBool false) d = JBool create ->
    let e := {| jira_id := j; description := desc; user_id := user;
                create_jira_items := create |} in
    start_jira_breakdown (dict_set "input" (JObj d) ev) w = (inr e, w) /\
    start_jira_breakdown (dict_set "input" (JStr (json_dumps (JObj d))) ev) w
    = (inr e, w).
Proof.
  intros Hrt.
  assert (start_jira_breakdown
            (dict_set "input" (JStr (json_dumps (JObj d))) ev) w =
          start_jira_breakdown (dict_set "input" (JObj d) ev) w) as Hsame.
  { rewrite (start_jira_breakdown_decoded _ d w).
    - rewrite (start_jira_breakdown_decoded _ d w); [done|].
      left. unfold dict_get_default. by rewrite dict_get_set_eq.
    - right. exists (json_dumps (JObj d)). split; [|done].
      unfold dict_get_default. by rewrite dict_get_set_eq. }
  split; [done|].
  intros j desc user create Hid Hj Hdesc Huser Hcreate e.
  rewrite Hsame.
  assert (start_jira_breakdown (dict_set "input" (JObj d) ev) w = (inr e, w))
    as Hobj; [|done].
  rewrite (start_jira_breakdown_decoded _ d w)
    by (left; unfold dict_get_default; by rewrite dict_get_set_eq).
  rewrite Hdesc, Huser, Hcreate.
  unfold dict_get_default. rewrite Hid. simpl.
  destruct (String.eqb_spec j "") as [->|_]; [done|]. simpl.
  by destruct desc, user.
Qed.

(** ** The placeholder synthesis *)

(** C5. The synthesizer returns, for every issue and every analysis map,
    the empty one included, a breakdown with at least one epic and never
    raises; every response the synthesis step returns has a list of epics
    that is not empty; and the step does return one whenever the context
    holds the details, the analyses and the request, and the summary of
    the details is a string or is missing. *)
Theorem epics_never_empty (d : pydict json) (a : pydict analysis) (w : world) :
  (exists epics stories,
     _synthesize_epics_and_stories d a w = (inr (epics, stories), w) /\
     epics <> []) /\
  (exists epics stories,
     _synthesize_epics_and_stories d [] w = (inr (epics, stories), w) /\
     epics <> []) /\
  (forall ev w0 w' resp,
     synthesize_breakdown ev w0 = (inr resp, w') -> epics resp <> []) /\
  (forall ev e x s,
     start_time_in w x ->
     ctx w !! "jira_details" = Some (CtxDetails d) ->
     ctx w !! "agent_analyses" = Some (CtxAnalyses a) ->
     ctx w !! "original_event" = Some (CtxEvent e) ->
     dict_get_default "summary" (JStr "") d = JStr s ->
     exists resp w',
       synthesize_breakdown ev w = (inr resp, w') /\ epics resp <> []).
Proof.
  split_and!.
  - by eexists _, _.
  - by eexists _, _.
  - intros ev w0 w' resp Hrun.
    destruct (synthesize_breakdown_inv ev w0 w' resp Hrun)
      as (e & a' & _ & _ & -> & _). done.
  - intros ev e x s Hx Hd Ha He Hs.
    rewrite (synthesize_breakdown_on ev e d a w x Hx Hd Ha He), Hs.
    by eexists _, _.
Qed.

(** C6. In every response the synthesis step returns, the parent epic of a
    story, when set, is the title of an epic of the same response; the two
    lists are the ones the synthesizer returns, whatever its input. *)
Theorem parent_epics_resolve (ev : BreakdownProgressEvent) (w w' : world)
    (resp : JiraBreakdownResponse) (story : JiraItem) (parent : string) :
  synthesize_breakdown ev w = (inr resp, w') ->
  story ∈ stories resp ->
  parent_epic story = Some parent ->
  (exists epic, epic ∈ epics resp /\ title epic = parent) /\
  (forall d a w0,
     _synthesize_epics_and_stories d a w0
     = (inr (epics resp, stories resp), w0)).
Proof.
  intros Hrun Hin Hparent.
  destruct (synthesize_breakdown_inv ev w w' resp Hrun)
    as (e & a & _ & _ & Hepics & Hstories & _).
  rewrite Hepics, Hstories in *. split; [|done].
  unfold synthesized_stories, synthesized_epics in *. simpl in *.
  eexists. split; [apply list_elem_of_singleton; reflexivity|]. simpl.
  apply elem_of_cons in Hin as [->|Hin]; [simpl in Hparent; congruence|].
  apply list_elem_of_singleton in Hin as ->. simpl in Hparent. congruence.
Qed.

(** ** The placeholder creation of items *)

Lemma create_each_spec (items : list JiraItem) :
  forall created : list string,
    create_each items created =
    created ++ map item_id (seq (length created) (length items)).
Proof.
  induction items as [|item rest IH]; intros created; simpl.
  - by rewrite app_nil_r.
  - rewrite IH, length_app, <- app_assoc. simpl.
    by rewrite Nat.add_1_r.
Qed.

Lemma item_id_inj : Inj eq eq item_id.
Proof.
  intros i j Hij. unfold item_id in Hij.
  apply String.app_inj, pretty_Z_inj in Hij. lia.
Qed.

Lemma create_jira_items_ids (epics stories : list JiraItem) :
  one_id_per_item epics stories
    (create_each stories (create_each epics [])).
Proof.
  rewrite !create_each_spec. simpl. rewrite length_map, length_seq.
  rewrite <- map_app, <- seq_app.
  set (n := (length epics + length stories)%nat).
  assert (forall i, (i < n)%nat -> map item_id (seq 0 n) !! i = Some (item_id i))
    as Hnth.
  { intros i Hi. change (map item_id (seq 0 n)) with (item_id <$> seq 0 n).
    rewrite list_lookup_fmap, lookup_seq_lt by done. done. }
  split_and!.
  - by rewrite length_map, length_seq.
  - intros i epic Hi. apply lookup_lt_Some in Hi. apply Hnth. lia.
  - intros j story Hj. apply lookup_lt_Some in Hj. apply Hnth. lia.
  - change (map item_id (seq 0 n)) with (item_id <$> seq 0 n).
    apply NoDup_fmap_2; [apply item_id_inj|apply NoDup_seq].
Qed.

(** C7. [_create_jira_items] on any lists returns one identifier per item:
    as many as there are items, those of the epics first, the item at
    position [i] of epics-then-stories having the identifier made at
    position [i]. A response of the synthesis step has no created items
    when the request in the context did not ask for creation, and
    otherwise the identifiers made in this way for its own epics and
    stories. *)
Theorem created_items_follow_flag (some_epics some_stories : list JiraItem)
    (w0 : world) :
  (exists ids,
     _create_jira_items some_epics some_stories w0 = (inr ids, w0) /\
     one_id_per_item some_epics some_stories ids) /\
  (forall ev e w w' resp,
     ctx w !! "original_event" = Some (CtxEvent e) ->
     synthesize_breakdown ev w = (inr resp, w') ->
     match create_jira_items e with
     | false => created_jira_items resp = None
     | true =>
         exists ids, created_jira_items resp = Some ids /\
                     one_id_per_item (epics resp) (stories resp) ids
     end).
Proof.
  split.
  - eexists. split; [apply create_jira_items_run|apply create_jira_items_ids].
  - intros ev e w w' resp He Hrun.
    destruct (synthesize_breakdown_inv ev w w' resp Hrun)
      as (e' & a & He' & _ & -> & -> & _ & _ & ->).
    rewrite He in He'. injection He' as <-.
    destruct (create_jira_items e); [|done].
    eexists. split; [done|apply create_jira_items_ids].
Qed.

(** ** The placeholder fetch *)

(** C8, as the code has it. The fetch is a placeholder that consults no
    tracker: for every identifier it returns a record of that identifier,
    with the summary made from it, and it never raises. *)
Theorem fetch_placeholder_never_fails (id : string) (w : world) :
  exists d : pydict json,
    _fetch_jira_via_mcp id w = (inr d, w) /\
    dict_get "id" d = Some (JStr id) /\
    dict_get "summary" d = Some (JStr ("Feature from " +:+ id)) /\
    forall (ex : exception) (w' : world),
      _fetch_jira_via_mcp id w <> (inl ex, w').
Proof.
  exists (fetched_details id). split_and!; try done.
Qed.

(** ** The summary *)

Lemma str_app_cons (c : ascii) (s t : string) :
  String c s +:+ t = String c (s +:+ t).
Proof. reflexivity. Qed.

Lemma str_app_nil_r (s : string) : s +:+ "" = s.
Proof. induction s as [|c s IH]; [done|]. by rewrite str_app_cons, IH. Qed.

Lemma str_app_assoc (s1 s2 s3 : string) :
  (s1 +:+ s2) +:+ s3 = s1 +:+ (s2 +:+ s3).
Proof.
  induction s1 as [|c s1 IH]; [done|]. by rewrite !str_app_cons, IH.
Qed.

Lemma str_rev_app_spec (s1 s2 : string) :
  String.rev_app s1 s2 = String.rev s1 +:+ s2.
Proof.
  revert s2. induction s1 as [|c s1 IH]; intros s2; [done|].
  unfold String.rev. simpl. rewrite (IH (String c s2)), (IH (String c "")).
  by rewrite str_app_assoc.
Qed.

Lemma str_rev_cons (c : ascii) (s : string) :
  String.rev (String c s) = String.rev s +:+ String c "".
Proof. unfold String.rev at 1. simpl. apply str_rev_app_spec. Qed.

Lemma str_rev_app (s1 s2 : string) :
  String.rev (s1 +:+ s2) = String.rev s2 +:+ String.rev s1.
Proof.
  induction s1 as [|c s1 IH].
  - by rewrite str_app_nil_r.
  - by rewrite str_app_cons, !str_rev_cons, IH, str_app_assoc.
Qed.

Lemma str_rev_involutive (s : string) : String.rev (String.rev s) = s.
Proof.
  induction s as [|c s IH]; [done|].
  by rewrite str_rev_cons, str_rev_app, IH.
Qed.

Lemma py_lstrip_stops (prefix : string) (c : ascii) (rest : string) :
  is_py_space c = false ->
  exists kept, py_lstrip (prefix +:+ String c rest) = kept +:+ String c rest.
Proof.
  intros Hc. induction prefix as [|a prefix [kept IH]].
  - exists "". simpl. by rewrite Hc.
  - rewrite str_app_cons. simpl. destruct (is_py_space a).
    + by exists kept.
    + by exists (String a prefix).
Qed.

(** [strip] keeps what lies between two characters that are not spaces. *)
Lemma py_strip_keeps (h c : ascii) (body tail : string) :
  is_py_space h = false -> is_py_space c = false ->
  exists post,
    py_strip (String h (body +:+ String c tail)) =
    String h (body +:+ String c post).
Proof.
  intros Hh Hc. unfold py_strip.
  assert (py_lstrip (String h (body +:+ String c tail)) =
          String h (body +:+ String c tail)) as -> by (simpl; by rewrite Hh).
  rewrite <- str_app_cons, str_rev_app, str_rev_cons, str_app_assoc.
  rewrite str_app_cons. change ("" +:+ ?x) with x.
  destruct (py_lstrip_stops (String.rev tail) c (String.rev (String h body)) Hc)
    as [kept ->].
  exists (String.rev kept).
  rewrite str_rev_app, str_rev_cons, str_rev_involutive, str_app_assoc.
  by rewrite !str_app_cons.
Qed.

Lemma py_strip_lines (h c : ascii) (body : string) :
  is_py_space h = false -> is_py_space c = false ->
  py_strip (newline +:+ String h (body +:+ String c newline)) =
  String h (body +:+ String c "").
Proof.
  intros Hh Hc.
  change (py_strip (newline +:+ ?x)) with (py_strip x).
  unfold py_strip.
  assert (py_lstrip (String h (body +:+ String c newline)) =
          String h (body +:+ String c newline)) as -> by (simpl; by rewrite Hh).
  rewrite <- str_app_cons, str_rev_app, str_rev_cons, str_app_assoc.
  rewrite str_app_cons. change ("" +:+ ?x) with x.
  change (String.rev newline +:+ ?x) with (String "010" x).
  cbn [py_lstrip is_py_space]. rewrite Hc.
  by rewrite str_rev_cons, str_rev_involutive, str_app_cons.
Qed.

Lemma py_sum_from (xs : list Z) (a : Z) :
  fold_left Z.add xs a = a + foldr Z.add 0 xs.
Proof.
  revert a. induction xs as [|x xs IH]; intros a; simpl; [lia|].
  rewrite IH. lia.
Qed.

Lemma total_story_points_all (stories : list JiraItem) :
  total_story_points stories =
  foldr Z.add 0 (map (fun story => default 0 (story_points story)) stories).
Proof.
  unfold total_story_points, py_sum. rewrite py_sum_from. simpl.
  induction stories as [|story stories IH]; [done|]. simpl.
  destruct (story_points story) as [n|] eqn:Hsp; simpl.
  - destruct (Z.eqb_spec n 0) as [->|Hn]; simpl; rewrite ?Hsp; simpl; lia.
  - done.
Qed.

Lemma total_story_points_app (l1 l2 : list JiraItem) :
  total_story_points (l1 ++ l2) = total_story_points l1 + total_story_points l2.
Proof.
  rewrite !total_story_points_all, map_app, foldr_app.
  induction (map _ l1) as [|x xs IH]; simpl; [done|]. rewrite IH. lia.
Qed.

Lemma total_story_points_skip (l1 l2 : list JiraItem) (story : JiraItem) :
  points_truthy (story_points story) = false ->
  total_story_points (l1 ++ story :: l2) = total_story_points (l1 ++ l2).
Proof.
  intros Hfalse. rewrite !total_story_points_app. f_equal.
  change (story :: l2) with ([story] ++ l2).
  rewrite total_story_points_app. unfold total_story_points at 1. simpl.
  by rewrite Hfalse.
Qed.

(** C9. The total of the summary is the sum of the estimates of the
    stories that have a truthy one: it is the sum over all stories with a
    missing estimate counted as 0; a story without estimate and a story
    estimated at 0 both leave the total as it is without them, and give
    the same summary; and the summary, after its first three lines, reads
    "- Total estimated story points: " followed by that total. *)
Theorem summary_total_counts_truthy_points (epics l1 l2 : list JiraItem)
    (story : JiraItem) :
  let stories := l1 ++ story :: l2 in
  total_story_points stories =
    foldr Z.add 0 (map (fun story => default 0 (story_points story)) stories) /\
  total_story_points (l1 ++ set_story_points None story :: l2) =
    total_story_points (l1 ++ l2) /\
  total_story_points (l1 ++ set_story_points (Some 0) story :: l2) =
    total_story_points (l1 ++ l2) /\
  _generate_breakdown_summary epics
    (l1 ++ set_story_points (Some 0) story :: l2) =
  _generate_breakdown_summary epics
    (l1 ++ set_story_points None story :: l2) /\
  exists post,
    _generate_breakdown_summary epics stories =
    "Feature breakdown completed:" +:+ newline +:+
    "- " +:+ pretty (length epics) +:+ " epic(s) identified" +:+ newline +:+
    "- " +:+ pretty (length stories) +:+ " story/stories created" +:+ newline +:+
    "- Total estimated story points: " +:+
       pretty (total_story_points stories) +:+ newline +:+
    "- Components involved:" +:+ post.
Proof.
  intros stories. split_and!.
  - apply total_story_points_all.
  - by apply total_story_points_skip.
  - by apply total_story_points_skip.
  - unfold _generate_breakdown_summary, all_components.
    rewrite !total_story_points_skip by done.
    rewrite !length_app. simpl.
    by rewrite !flat_map_app.
  - unfold _generate_breakdown_summary.
    set (n1 := pretty (length epics)). set (n2 := pretty (length stories)).
    set (n3 := pretty (total_story_points stories)).
    set (r := repr_component_set _).
    destruct (py_strip_keeps "F" ":"
      ("eature breakdown completed:" +:+ newline +:+
       "- " +:+ n1 +:+ " epic(s) identified" +:+ newline +:+
       "- " +:+ n2 +:+ " story/stories created" +:+ newline +:+
       "- Total estimated story points: " +:+ n3 +:+ newline +:+
       "- Components involved")
      (" " +:+ r +:+ newline) eq_refl eq_refl) as [post Hpost].
    exists post.
    etrans; [|etrans; [exact Hpost|]].
    + change (py_strip (newline +:+ ?x)) with (py_strip x).
      f_equal. rewrite !str_app_assoc. reflexivity.
    + rewrite !str_app_assoc. reflexivity.
Qed.

End Properties.

(** * Further properties of the steps *)

Section StartStep.
Context `{Collaborators}.

(** ** The start step: what it rejects and what it reads *)

(** X1. When the input, as given or as decoded from its JSON text, is not
    a dict, the start step raises the [AttributeError] of the missing
    [get], naming the type of the value, and leaves the world as it found
    it. *)
Theorem start_rejects_non_dict (ev : StartEvent) (v : json) (w : world) :
  decodes_to ev v -> (forall d, v <> JObj d) ->
  start_jira_breakdown ev w =
  (inl (AttributeError ("'" +:+ py_type_name v +:+
                        "' object has no attribute 'get'")), w).
Proof.
  intros Hdec Hnd. rewrite (start_jira_breakdown_on ev v w Hdec).
  destruct v as [| | | | |d]; try reflexivity. by destruct (Hnd d).
Qed.

(** X2. The start step raises nothing but: what [json.loads] raised on the
    text of the input, the [AttributeError] of a value that is not a dict,
    the [ValueError] of the missing identifier, or the validation error of
    the event. *)
Theorem start_failure_modes (ev : StartEvent) (w w' : world) (ex : exception) :
  start_jira_breakdown ev w = (inl ex, w') ->
  (exists s, dict_get_default "input" (JObj []) ev = JStr s /\
             json_loads s = inl ex) \/
  (exists v, decodes_to ev v /\ (forall d, v <> JObj d) /\
             ex = AttributeError ("'" +:+ py_type_name v +:+
                                  "' object has no attribute 'get'")) \/
  (exists d, decodes_to ev (JObj d) /\
             truthy (dict_get_default "jira_id" (JStr "") d) = false /\
             ex = ValueError "jira_id is required") \/
  (exists d, decodes_to ev (JObj d) /\
             truthy (dict_get_default "jira_id" (JStr "") d) = true /\
             ex = ValidationError "JiraBreakdownEvent").
Proof.
  intros Hstart.
  assert (forall v, decodes_to ev v ->
    (exists v, decodes_to ev v /\ (forall d, v <> JObj d) /\
               ex = AttributeError ("'" +:+ py_type_name v +:+
                                    "' object has no attribute 'get'")) \/
    (exists d, decodes_to ev (JObj d) /\
               truthy (dict_get_default "jira_id" (JStr "") d) = false /\
               ex = ValueError "jira_id is required") \/
    (exists d, decodes_to ev (JObj d) /\
               truthy (dict_get_default "jira_id" (JStr "") d) = true /\
               ex = ValidationError "JiraBreakdownEvent")) as Hcases.
  { intros v Hdec. rewrite (start_jira_breakdown_on ev v w Hdec) in Hstart.
    destruct v as [| | | | |d];
      try (left; eexists; split_and!; [exact Hdec|by intros d|congruence]).
    right.
    destruct (truthy (dict_get_default "jira_id" (JStr "") d)) eqn:Ht;
      simpl in Hstart.
    - right. exists d. split_and!; [done..|].
      unfold new_JiraBreakdownEvent in Hstart.
      repeat case_match; congruence.
    - left. exists d. split_and!; [done..|]. congruence. }
  destruct (dict_get_default "input" (JObj []) ev) as [| | |s| |d0] eqn:Hin;
    try (right; eapply Hcases; left; split; [exact Hin|by intros s]).
  destruct (json_loads s) as [e|v] eqn:Hs.
  - left. exists s. split; [done|].
    unfold start_jira_breakdown in Hstart. rewrite bind_run, Hin in Hstart.
    unfold lift in Hstart. rewrite Hs in Hstart. congruence.
  - right. apply (Hcases v). right. by exists s.
Qed.

(** X3. For an input that is a dict, the start step raises the
    [ValueError] "jira_id is required" exactly when the value under
    [jira_id] is falsy; it does so when the key is absent and when its
    value is the empty string, [None], [0], [False], an empty list or an
    empty dict. *)
Theorem falsy_jira_id_rejected (ev : StartEvent) (d : pydict json) (w : world) :
  decodes_to ev (JObj d) ->
  (start_jira_breakdown ev w = (inl (ValueError "jira_id is required"), w) <->
   truthy (dict_get_default "jira_id" (JStr "") d) = false) /\
  (dict_get "jira_id" d ∈
     [None; Some (JStr ""); Some JNull; Some (JInt 0); Some (JBool false);
      Some (JList []); Some (JObj [])] ->
   start_jira_breakdown ev w = (inl (ValueError "jira_id is required"), w)).
Proof.
  intros Hdec.
  assert (truthy (dict_get_default "jira_id" (JStr "") d) = false ->
          start_jira_breakdown ev w
          = (inl (ValueError "jira_id is required"), w)) as Hfalsy.
  { intros Ht. rewrite (start_jira_breakdown_on ev _ w Hdec). by rewrite Ht. }
  split; [split; [|done]|].
  - rewrite (start_jira_breakdown_on ev _ w Hdec).
    destruct (truthy _); [|done]. simpl. unfold new_JiraBreakdownEvent.
    intros Heq. repeat case_match; discriminate.
  - intros Hin. apply Hfalsy. unfold dict_get_default.
    repeat (apply elem_of_cons in Hin as [->|Hin]; [done|]).
    by apply elem_of_nil in Hin.
Qed.

(** X4. The start step reads four fields of the request and nothing else:
    two requests that agree on [jira_id], [description], [user_id] and
    [create_jira_items] have the same outcome, whatever other keys they
    carry. *)
Theorem start_reads_four_fields (ev ev' : StartEvent) (d d' : pydict json)
    (w : world) :
  decodes_to ev (JObj d) -> decodes_to ev' (JObj d') ->
  same_request_fields d d' ->
  start_jira_breakdown ev w = start_jira_breakdown ev' w /\
  run_workflow ev w = run_workflow ev' w.
Proof.
  intros Hd Hd' (H1 & H2 & H3 & H4).
  assert (start_jira_breakdown ev w = start_jira_breakdown ev' w) as Hs.
  { rewrite (start_jira_breakdown_on ev _ w Hd),
            (start_jira_breakdown_on ev' _ w Hd').
    unfold dict_get_default. by rewrite H1, H2, H3, H4. }
  split; [done|]. by rewrite !run_workflow_refused.
Qed.

(** X5. A request that gives only a non-empty string [jira_id] is accepted
    with the defaults: no description, no user, nothing to create. A
    [description] or [user_id] that is [None] counts as absent. *)
Theorem start_applies_defaults (ev : StartEvent) (d : pydict json)
    (w : world) (j : string) :
  decodes_to ev (JObj d) ->
  dict_get "jira_id" d = Some (JStr j) -> j <> "" ->
  dict_get "description" d ∈ [None; Some JNull] ->
  dict_get "user_id" d ∈ [None; Some JNull] ->
  dict_get "create_jira_items" d = None ->
  start_jira_breakdown ev w =
  (inr {| jira_id := j; description := None; user_id := None;
          create_jira_items := false |}, w).
Proof.
  intros Hdec Hid Hj Hdesc Huser Hcreate.
  rewrite (start_jira_breakdown_on ev _ w Hdec).
  unfold dict_get_default. rewrite Hid, Hcreate. simpl.
  destruct (String.eqb_spec j "") as [->|_]; [done|]. simpl.
  apply elem_of_cons in Hdesc as [->|Hdesc];
    [|apply list_elem_of_singleton in Hdesc as ->];
  (apply elem_of_cons in Huser as [->|Huser];
    [|apply list_elem_of_singleton in Huser as ->]); reflexivity.
Qed.

(** X6. Whatever the start step returns or raises, it leaves the world as
    it found it: it queues no event, stores nothing and reads no clock. *)
Theorem start_step_has_no_effect (ev : StartEvent) (w w' : world)
    (r : exception + JiraBreakdownEvent) :
  start_jira_breakdown ev w = (r, w') ->
  w' = w /\ trace w' = trace w /\ ctx w' = ctx w.
Proof. intros Hstart. by apply start_keeps_world in Hstart as ->. Qed.

End StartStep.

Section Effects.
Context `{Collaborators}.

(** ** What every step keeps *)

#[local] Instance extends_preorder : PreOrder extends.
Proof.
  split.
  - intros w. by split.
  - intros w1 w2 w3 [Ht1 Hc1] [Ht2 Hc2]. split; by etrans.
Qed.

#[local] Instance same_clock_preorder : PreOrder same_clock.
Proof.
  split; [by intros w|]. intros w1 w2 w3. unfold same_clock. congruence.
Qed.

Lemma keeps_ret {A} (R : world -> world -> Prop) `{!Reflexive R} (a : A) :
  keeps R (mret a).
Proof. intros w. simpl. reflexivity. Qed.

Lemma keeps_raise {A} (R : world -> world -> Prop) `{!Reflexive R}
    (e : exception) : keeps R (raise e : M A).
Proof. intros w. simpl. reflexivity. Qed.

Lemma keeps_lift {A} (R : world -> world -> Prop) `{!Reflexive R}
    (r : exception + A) : keeps R (lift r).
Proof. intros w. simpl. reflexivity. Qed.

Lemma keeps_bind {A B} (R : world -> world -> Prop) `{!Transitive R}
    (m : M A) (f : A -> M B) :
  keeps R m -> (forall a, keeps R (f a)) -> keeps R (m ≫= f).
Proof.
  intros Hm Hf w. rewrite bind_run. specialize (Hm w).
  destruct (m w) as [[e|a] w1]; simpl in *; [done|].
  etrans; [exact Hm|apply Hf].
Qed.

Lemma extends_add_trace (tr : list action) (w : world) :
  extends w (add_trace tr w).
Proof. split; [by apply prefix_app_r|done]. Qed.

Lemma keeps_ctx_set_extends (k : string) (v : ctx_value) :
  keeps extends (ctx_set k v).
Proof.
  intros w. split; [done|]. simpl. rewrite dom_insert. set_solver.
Qed.

Lemma keeps_ctx_get (R : world -> world -> Prop) `{!Reflexive R} (k : string) :
  keeps R (ctx_get k).
Proof. intros w. unfold ctx_get. destruct (ctx w !! k); simpl; reflexivity. Qed.

Lemma keeps_ctx_get_default (R : world -> world -> Prop) `{!Reflexive R}
    (k : string) (v : ctx_value) : keeps R (ctx_get_default k v).
Proof. intros w. simpl. reflexivity. Qed.

Lemma keeps_read_loop_time_extends : keeps extends read_loop_time.
Proof. intros w. by split. Qed.

Lemma keeps_read_now_extends : keeps extends read_now_isoformat.
Proof. intros w. by split. Qed.

Lemma keeps_ctx_set_clock (k : string) (v : ctx_value) :
  keeps same_clock (ctx_set k v).
Proof. by intros w. Qed.

Lemma keeps_start (R : world -> world -> Prop) `{!Reflexive R} (ev : StartEvent) :
  keeps R (start_jira_breakdown ev).
Proof.
  intros w. destruct (start_jira_breakdown ev w) as [r w'] eqn:Hs.
  apply start_keeps_world in Hs as ->. simpl. reflexivity.
Qed.

Lemma keeps_send_event_extends (e : progress_event) :
  keeps extends (send_event e).
Proof. intros w. rewrite send_event_run. apply extends_add_trace. Qed.

Lemma keeps_send_event_clock (e : progress_event) :
  keeps same_clock (send_event e).
Proof. by intros w. Qed.

Lemma keeps_analyze_loop_extends desc total items aa c :
  keeps extends (analyze_loop desc total items aa c).
Proof.
  intros w. destruct (analyze_loop_run desc total items aa c w) as (tr & -> & _).
  apply extends_add_trace.
Qed.

Lemma keeps_analyze_loop_clock desc total items aa c :
  keeps same_clock (analyze_loop desc total items aa c).
Proof.
  intros w. by destruct (analyze_loop_run desc total items aa c w)
    as (tr & -> & _).
Qed.

Lemma keeps_as (R : world -> world -> Prop) `{!Reflexive R} (v : ctx_value) :
  keeps R (as_details v) /\ keeps R (as_event v) /\
  keeps R (as_analyses v) /\ keeps R (as_float v).
Proof.
  split_and!; destruct v; first [apply keeps_ret | apply keeps_raise]; done.
Qed.

Lemma keeps_prepare (R : world -> world -> Prop) `{!PreOrder R}
    (d : pydict json) (a : option string) :
  keeps R (_prepare_feature_description d a).
Proof.
  unfold _prepare_feature_description.
  apply keeps_bind; [apply _|apply keeps_lift, _|intros id].
  apply keeps_bind; [apply _|apply keeps_lift, _|intros summary].
  apply keeps_ret, _.
Qed.

Ltac keeps_bind_step :=
  apply keeps_bind; [apply _| |intros ?].

Lemma keeps_fetch_extends (e : JiraBreakdownEvent) :
  keeps extends (fetch_jira_details e).
Proof. intros w. rewrite fetch_jira_details_run. apply extends_add_trace. Qed.

Lemma keeps_fetch_clock (e : JiraBreakdownEvent) :
  keeps same_clock (fetch_jira_details e).
Proof. intros w. by rewrite fetch_jira_details_run. Qed.

Lemma keeps_analyze_extends (fetched : JiraFetchProgressEvent) :
  keeps extends (analyze_with_agents fetched).
Proof.
  unfold analyze_with_agents.
  keeps_bind_step.
  { keeps_bind_step; [apply keeps_ctx_get, _|]. apply keeps_as, _. }
  keeps_bind_step.
  { keeps_bind_step; [apply keeps_ctx_get, _|]. apply keeps_as, _. }
  keeps_bind_step; [apply keeps_prepare, _|].
  keeps_bind_step; [apply keeps_send_event_extends|].
  apply keeps_bind; [apply _|apply keeps_analyze_loop_extends|intros [aa c]].
  keeps_bind_step; [apply keeps_ctx_set_extends|].
  apply keeps_ret, _.
Qed.

Lemma keeps_analyze_clock (fetched : JiraFetchProgressEvent) :
  keeps same_clock (analyze_with_agents fetched).
Proof.
  unfold analyze_with_agents.
  keeps_bind_step.
  { keeps_bind_step; [apply keeps_ctx_get, _|]. apply keeps_as, _. }
  keeps_bind_step.
  { keeps_bind_step; [apply keeps_ctx_get, _|]. apply keeps_as, _. }
  keeps_bind_step; [apply keeps_prepare, _|].
  keeps_bind_step; [apply keeps_send_event_clock|].
  apply keeps_bind; [apply _|apply keeps_analyze_loop_clock|intros [aa c]].
  keeps_bind_step; [apply keeps_ctx_set_clock|].
  apply keeps_ret, _.
Qed.

Lemma keeps_synthesize_extends (ev : BreakdownProgressEvent) :
  keeps extends (synthesize_breakdown ev).
Proof.
  unfold synthesize_breakdown.
  keeps_bind_step; [apply keeps_read_loop_time_extends|].
  keeps_bind_step.
  { keeps_bind_step; [apply keeps_ctx_get_default, _|]. apply keeps_as, _. }
  keeps_bind_step.
  { keeps_bind_step; [apply keeps_ctx_get, _|]. apply keeps_as, _. }
  keeps_bind_step.
  { keeps_bind_step; [apply keeps_ctx_get, _|]. apply keeps_as, _. }
  keeps_bind_step.
  { keeps_bind_step; [apply keeps_ctx_get, _|]. apply keeps_as, _. }
  apply keeps_bind; [apply _|apply keeps_ret, _|intros [epics stories]].
  keeps_bind_step.
  { destruct (create_jira_items _); [|apply keeps_ret, _].
    keeps_bind_step; apply keeps_ret, _. }
  keeps_bind_step; [apply keeps_read_loop_time_extends|].
  keeps_bind_step; [apply keeps_read_now_extends|].
  destruct (pydantic_str _); [apply keeps_ret, _|apply keeps_raise, _].
Qed.

(** X7. In any world, and whether they return or raise, the steps and the
    whole run only append to the log and never remove a key of the
    context: what was emitted stays emitted, in the same order. *)
Theorem run_only_extends (ev : StartEvent) (e : JiraBreakdownEvent)
    (fetched : JiraFetchProgressEvent) (analyzed : BreakdownProgressEvent)
    (w : world) :
  extends w (fetch_jira_details e w).2 /\
  extends w (analyze_with_agents fetched w).2 /\
  extends w (synthesize_breakdown analyzed w).2 /\
  extends w (run_workflow ev w).2.
Proof.
  split_and!.
  - apply keeps_fetch_extends.
  - apply keeps_analyze_extends.
  - apply keeps_synthesize_extends.
  - rewrite run_workflow_refused. simpl. reflexivity.
Qed.

Lemma reads_none {A} (m : M A) : keeps same_clock m -> reads_at_most 0 m.
Proof. intros Hm w. specialize (Hm w). unfold same_clock in Hm. lia. Qed.

Lemma reads_bind {A B} (k1 k2 : nat) (m : M A) (f : A -> M B) :
  reads_at_most k1 m -> (forall a, reads_at_most k2 (f a)) ->
  reads_at_most (k1 + k2) (m ≫= f).
Proof.
  intros Hm Hf w. rewrite bind_run. specialize (Hm w).
  destruct (m w) as [[e|a] w1]; simpl in *; [lia|].
  specialize (Hf a w1). lia.
Qed.

Lemma reads_loop_time : reads_at_most 1 read_loop_time.
Proof. intros w. simpl. lia. Qed.

Lemma reads_now : reads_at_most 1 read_now_isoformat.
Proof. intros w. simpl. lia. Qed.

Lemma reads_ctx_get_as {A} (k : string) (f : ctx_value -> M A) :
  (forall v, keeps same_clock (f v)) ->
  reads_at_most 0 (ctx_get k ≫= f).
Proof.
  intros Hf. apply reads_none, keeps_bind; [apply _| |done].
  apply keeps_ctx_get, _.
Qed.

Lemma reads_synthesize (ev : BreakdownProgressEvent) :
  reads_at_most 3 (synthesize_breakdown ev).
Proof.
  unfold synthesize_breakdown.
  apply (reads_bind 1 2); [apply reads_loop_time|intros default_start].
  apply (reads_bind 0 2).
  { apply reads_none, keeps_bind; [apply _| |intros v; apply keeps_as, _].
    apply keeps_ctx_get_default, _. }
  intros start_time.
  apply (reads_bind 0 2);
    [apply reads_ctx_get_as; intros v; apply keeps_as, _|intros d].
  apply (reads_bind 0 2);
    [apply reads_ctx_get_as; intros v; apply keeps_as, _|intros a].
  apply (reads_bind 0 2);
    [apply reads_ctx_get_as; intros v; apply keeps_as, _|intros e].
  apply (reads_bind 0 2);
    [apply reads_none, keeps_ret, _|intros [epics stories]].
  apply (reads_bind 0 2).
  { apply reads_none. destruct (create_jira_items e); [|apply keeps_ret, _].
    apply keeps_bind; [apply _|apply keeps_ret, _|intros ids].
    apply keeps_ret, _. }
  intros created.
  apply (reads_bind 1 1); [apply reads_loop_time|intros end_time].
  apply (reads_bind 1 0); [apply reads_now|intros ts].
  apply reads_none.
  destruct (pydantic_str _); [apply keeps_ret, _|apply keeps_raise, _].
Qed.

(** X8. The start, fetch and analysis steps never read the clock, in any
    world and on every path; the whole run reads it at most three times,
    all in the synthesis step. *)
Theorem clock_read_only_by_synthesis (ev : StartEvent) (e : JiraBreakdownEvent)
    (fetched : JiraFetchProgressEvent) (analyzed : BreakdownProgressEvent)
    (w : world) :
  clock_reads (start_jira_breakdown ev w).2 = clock_reads w /\
  clock_reads (fetch_jira_details e w).2 = clock_reads w /\
  clock_reads (analyze_with_agents fetched w).2 = clock_reads w /\
  (clock_reads w <= clock_reads (synthesize_breakdown analyzed w).2
                 <= clock_reads w + 3)%nat /\
  (clock_reads w <= clock_reads (run_workflow ev w).2
                 <= clock_reads w + 3)%nat.
Proof.
  split; [|split; [|split; [|split]]].
  - apply (keeps_start same_clock).
  - apply keeps_fetch_clock.
  - apply keeps_analyze_clock.
  - apply reads_synthesize.
  - rewrite run_workflow_refused. simpl. lia.
Qed.

End Effects.

Section WhereTheStepsStop.
Context `{Collaborators}.

(** ** The awaited [send_event] and the refused run *)

(** X14. In any world and for any request, the fetch step queues its
    event of progress 10 and then raises the [TypeError] of the [await]:
    the placeholder fetch is not called and neither [jira_details] nor
    [original_event] is stored. *)
Theorem fetch_stops_at_first_send_event (e : JiraBreakdownEvent) (w : world) :
  exists w',
    fetch_jira_details e w = (inl (TypeError await_none_message), w') /\
    trace w' = trace w ++
      [SendEvent (FetchProgress
         {| fetch_stage := "fetching_jira";
            fetch_progress := 10;
            fetch_message := "Fetching details for " +:+ jira_id e;
            fetch_jira_id := jira_id e |})] /\
    ctx w' = ctx w /\
    clock_reads w' = clock_reads w.
Proof. eexists. by rewrite fetch_jira_details_run. Qed.

(** X9. In a context that holds the details of an issue, with [id] and
    [summary], and the request, the analysis step queues its starting
    event, of progress 30 and with the number of configured personas, and
    then raises the [TypeError] of the [await], whatever the personas:
    none is called, nothing is printed, and [agent_analyses] is not
    stored. *)
Theorem analysis_stops_at_first_send_event (fetched : JiraFetchProgressEvent)
    (e : JiraBreakdownEvent) (d : pydict json) (w : world) :
  ctx w !! "jira_details" = Some (CtxDetails d) ->
  ctx w !! "original_event" = Some (CtxEvent e) ->
  is_Some (dict_get "id" d) -> is_Some (dict_get "summary" d) ->
  exists w',
    analyze_with_agents fetched w = (inl (TypeError await_none_message), w') /\
    trace w' = trace w ++
      [SendEvent (analysis_started (Z.of_nat (length get_agent_personas)))] /\
    invoked (trace w') = invoked (trace w) /\
    printed (trace w') = printed (trace w) /\
    ctx w' = ctx w /\
    clock_reads w' = clock_reads w.
Proof.
  intros Hd He Hid Hsum.
  rewrite (analyze_with_agents_run fetched e d w Hd He Hid Hsum).
  eexists. split; [reflexivity|]. cbn [trace ctx clock_reads add_trace].
  rewrite invoked_app, printed_app. simpl. by rewrite !app_nil_r.
Qed.

(** X10. The loop over the personas, taken by itself, never raises: on a
    table with distinct names it calls every persona once, in table order,
    keeps the analyses of exactly those that returned, in table order,
    counts them, and ends every pass in the handler, which prints one line
    per persona: the pass of a persona whose analysis returned ends there
    too, by the [TypeError] of the awaited [send_event] or by an error of
    the progress arithmetic. *)
Theorem persona_loop_isolates_failures (desc : string) (total : Z)
    (items : pydict persona_config) (w : world) :
  NoDup items.*1 ->
  exists tr : list action,
    analyze_loop desc total items [] 0 w =
      (inr (successes desc items,
            Z.of_nat (length (successes desc items))), add_trace tr w) /\
    invoked tr = items.*1 /\
    length (printed tr) = length items /\
    length (successes desc items) =
      (length items - length (List.filter (persona_fails desc) items))%nat /\
    (successes desc items).*1 `sublist_of` items.*1.
Proof.
  intros Hnd.
  destruct (analyze_loop_run desc total items [] 0 w) as (tr & Hrun & Hinv & Hpr).
  rewrite fanout_analyses_fresh, fanout_completed_count in Hrun by done.
  exists tr. split_and!; [done..| |].
  - apply length_successes.
  - apply successes_keys_sublist.
Qed.


End WhereTheStepsStop.

Section DescriptionAndSynthesis.
Context `{Collaborators}.

(** ** The feature description *)

(** X15. The details of the issue must hold [id] and [summary]: without
    [id], or with [id] and without [summary], the feature description
    raises the [KeyError] of the missing key, and the analysis step raises
    it too, before it sends any event or calls any persona. *)
Theorem analysis_needs_id_and_summary (fetched : JiraFetchProgressEvent)
    (e : JiraBreakdownEvent) (d : pydict json) (k : string) (w : world) :
  ctx w !! "jira_details" = Some (CtxDetails d) ->
  ctx w !! "original_event" = Some (CtxEvent e) ->
  (k = "id" /\ dict_get "id" d = None) \/
  (k = "summary" /\ is_Some (dict_get "id" d) /\ dict_get "summary" d = None) ->
  _prepare_feature_description d (description e) w = (inl (KeyError k), w) /\
  analyze_with_agents fetched w = (inl (KeyError k), w).
Proof.
  intros Hd He Hk.
  assert (_prepare_feature_description d (description e) w
          = (inl (KeyError k), w)) as Hprep.
  { rewrite prepare_feature_description_on.
    destruct Hk as [[-> ->] | (-> & [id ->] & ->)]; done. }
  split; [done|]. unfold analyze_with_agents.
  rewrite !bind_run. unfold ctx_get at 1. rewrite Hd. simpl.
  rewrite !bind_run. unfold ctx_get at 1. rewrite He. simpl.
  by rewrite bind_run, Hprep.
Qed.

(** X16. A non-empty additional description adds one part, "Additional
    Context: ...", after a blank line at the end of the feature
    description; an empty one changes nothing, like none at all. *)
Theorem additional_context_is_appended (d : pydict json) (a base : string)
    (w : world) :
  a <> "" ->
  _prepare_feature_description d None w = (inr base, w) ->
  _prepare_feature_description d (Some a) w =
    (inr (base +:+ newline +:+ newline +:+ "Additional Context: " +:+ a), w) /\
  _prepare_feature_description d (Some "") w = (inr base, w).
Proof.
  intros Ha. rewrite !prepare_feature_description_on.
  destruct (dict_get "id" d) as [id|]; [|done].
  destruct (dict_get "summary" d) as [summary|]; [|done].
  intros Hbase. injection Hbase as <-. split; [|done].
  destruct (String.eqb_spec a "") as [->|_]; [done|].
  f_equal. f_equal. cbn [negb app str_join].
  by rewrite !str_app_assoc.
Qed.

(** X17. Details without [description] give the feature description of
    the same details with the description "No description". *)
Theorem missing_description_has_default (d : pydict json) (a : option string)
    (w : world) :
  dict_get "description" d = None ->
  _prepare_feature_description d a w =
  _prepare_feature_description
    (dict_set "description" (JStr "No description") d) a w.
Proof.
  intros Hnone. rewrite !prepare_feature_description_on.
  rewrite !dict_get_set_ne by done.
  unfold dict_get_default. by rewrite Hnone, dict_get_set_eq.
Qed.

(** ** The synthesis step on any stored context *)

(** X18. On any stored details, analyses and request, the synthesis step
    returns a response that carries the stored analyses as they are, the
    identifier of the request and the summary of the details, the empty
    string when the details have none; its processing time runs from the
    [start_time] of the context, or else from the first of its own clock
    readings, to the second; it sends no event and stores nothing. *)
Theorem synthesis_echoes_context (ev : BreakdownProgressEvent)
    (e : JiraBreakdownEvent) (d : pydict json) (a : pydict analysis)
    (w : world) (x : float) (s : string) :
  start_time_in w x ->
  ctx w !! "jira_details" = Some (CtxDetails d) ->
  ctx w !! "agent_analyses" = Some (CtxAnalyses a) ->
  ctx w !! "original_event" = Some (CtxEvent e) ->
  dict_get "summary" d = Some (JStr s) \/ (dict_get "summary" d = None /\ s = "") ->
  exists resp,
    synthesize_breakdown ev w =
      (inr resp,
       {| ctx := ctx w; trace := trace w; clock_reads := 3 + clock_reads w |}) /\
    agent_analyses resp = a /\
    original_jira_id resp = jira_id e /\
    original_summary resp = s /\
    processing_time resp
      = PrimFloat.sub (loop_time (S (clock_reads w))) x /\
    (create_jira_items e = false -> created_jira_items resp = None).
Proof.
  intros Hx Hd Ha He Hs.
  rewrite (synthesize_breakdown_on ev e d a w x Hx Hd Ha He).
  assert (pydantic_str (dict_get_default "summary" (JStr "") d) = Some s)
    as ->.
  { unfold dict_get_default. by destruct Hs as [-> | [-> ->]]. }
  eexists. split; [reflexivity|]. cbn [agent_analyses original_jira_id
    original_summary processing_time created_jira_items response_at].
  split_and!; try done. by intros ->.
Qed.

(** X19. Run in a context that holds no [jira_details], the analysis step
    raises at its first read of the context: it sends no event, calls no
    persona and stores nothing. *)
Theorem analysis_needs_fetched_details (fetched : JiraFetchProgressEvent)
    (w : world) :
  ctx w !! "jira_details" = None ->
  exists ex,
    analyze_with_agents fetched w = (inl ex, w) /\
    exc_class ex = "ValueError".
Proof.
  intros Hd. unfold analyze_with_agents.
  rewrite !bind_run. unfold ctx_get at 1. rewrite Hd.
  eexists. split; reflexivity.
Qed.

(** ** The text of the summary *)

(** X20. When the rendering of the set of components ends with a character
    that is not a space, as the closing bracket of a list does, the
    summary is exactly its five lines: no blank before the first, the
    rendering last and no newline after it. *)
Theorem summary_exact_text (epics stories : list JiraItem) (r : string)
    (c : ascii) :
  repr_component_set (all_components epics stories) = r +:+ String c "" ->
  is_py_space c = false ->
  _generate_breakdown_summary epics stories =
  "Feature breakdown completed:" +:+ newline +:+
  "- " +:+ pretty (length epics) +:+ " epic(s) identified" +:+ newline +:+
  "- " +:+ pretty (length stories) +:+ " story/stories created" +:+ newline +:+
  "- Total estimated story points: " +:+
     pretty (total_story_points stories) +:+ newline +:+
  "- Components involved: " +:+ r +:+ String c "".
Proof.
  intros Hr Hc. unfold _generate_breakdown_summary. rewrite Hr.
  set (n1 := pretty (length epics)). set (n2 := pretty (length stories)).
  set (n3 := pretty (total_story_points stories)).
  etrans; [|etrans; [exact (py_strip_lines "F" c
      ("eature breakdown completed:" +:+ newline +:+
       "- " +:+ n1 +:+ " epic(s) identified" +:+ newline +:+
       "- " +:+ n2 +:+ " story/stories created" +:+ newline +:+
       "- Total estimated story points: " +:+ n3 +:+ newline +:+
       "- Components involved: " +:+ r) eq_refl Hc)|]].
  - f_equal. rewrite !str_app_assoc. reflexivity.
  - rewrite !str_app_assoc. reflexivity.
Qed.

(** ** The exact progress arithmetic *)

(** X13. For a total of 1 to [max_personas] personas and a count up to the
    total, the binary64 computation [30 + int((completed / total) * 40)]
    does not raise and gives exactly 30 + 40*completed/total rounded down:
    a value from 30 to 70 that does not decrease with the count and is 70
    only when the count is the total. *)
Theorem progress_arithmetic_exact (c c' t : Z) :
  1 <= t <= Z.of_nat max_personas -> 0 <= c <= c' -> c' <= t ->
  fanout_progress c t = inr (30 + 40 * c / t) /\
  fanout_progress c' t = inr (30 + 40 * c' / t) /\
  30 <= 30 + 40 * c / t <= 30 + 40 * c' / t /\
  30 + 40 * c' / t <= 70 /\
  (30 + 40 * c / t = 70 <-> c = t).
Proof.
  intros Ht Hc Hc'.
  rewrite !fanout_progress_exact by lia.
  assert (0 <= 40 * c / t) by (apply Z.div_pos; lia).
  assert (40 * c / t <= 40 * c' / t) by (apply Z.div_le_mono; lia).
  assert (40 * c' / t <= 40) by (apply Z.div_le_upper_bound; nia).
  split; [done|]. split; [done|]. split; [lia|]. split; [lia|].
  split.
  - intros Heq. destruct (decide (c = t)) as [|Hne]; [done|].
    assert (40 * c / t < 40) by (apply Z.div_lt_upper_bound; nia). lia.
  - intros ->. rewrite Z.div_mul by lia. done.
Qed.

End DescriptionAndSynthesis.

(** * Concrete inputs

    The theorems above, applied to the reference collaborators and to the
    request of the test client, and the steps evaluated where the code
    departs from what was claimed. *)

Lemma test_request_accepted (C : Collaborators) :
  @start_jira_breakdown C [("input", JObj Demo.test_request)] new_world
  = (inr Demo.test_event, new_world).
Proof. reflexivity. Qed.

Lemma analysis_context_details (C : Collaborators) :
  ctx (Demo.analysis_context C) !! "jira_details"
  = Some (CtxDetails (@fetched_details C "RHOAIENG-669")).
Proof. reflexivity. Qed.

Lemma analysis_context_event (C : Collaborators) :
  ctx (Demo.analysis_context C) !! "original_event"
  = Some (CtxEvent Demo.test_event).
Proof. reflexivity. Qed.

Lemma analysis_context_stops (C : Collaborators) :
  @analyze_with_agents C Demo.fetched_event (Demo.analysis_context C) =
  (inl await_error,
   add_trace
     [SendEvent (analysis_started (Z.of_nat (length get_agent_personas)))]
     (Demo.analysis_context C)).
Proof.
  apply (@analyze_with_agents_run C _ Demo.test_event _ _
           (analysis_context_details C) (analysis_context_event C));
    by eexists.
Qed.

Lemma synthesis_context_runs (C : Collaborators) (e : JiraBreakdownEvent)
    (a : pydict (@analysis C)) :
  @synthesize_breakdown C Demo.analyzed_event
    (Demo.synthesis_context C e a) =
  (inr (response_at e a ("Feature from " +:+ jira_id e) (loop_time 0) 0),
   {| ctx := ctx (Demo.synthesis_context C e a);
      trace := [];
      clock_reads := 3 |}).
Proof.
  apply (@synthesize_breakdown_on C Demo.analyzed_event e
           (fetched_details (jira_id e)) a (Demo.synthesis_context C e a)
           (loop_time 0)); [left; by split|reflexivity..].
Qed.

(** ** Where the code departs from what was claimed *)

(** C1, at the failing input. With three personas configured, one of
    which would raise, and the context holding the record and the
    request, the analysis step raises the [TypeError] of its first awaited
    [send_event]: the starting event was queued, no persona was called and
    no analysis map was stored. *)
Theorem fanout_raises_before_first_persona :
  exists ex w',
    @analyze_with_agents Demo.one_failing Demo.fetched_event
      (Demo.analysis_context Demo.one_failing) = (inl ex, w') /\
    exc_class ex = "TypeError" /\
    length (@get_agent_personas Demo.one_failing) = 3%nat /\
    sent_events (trace w') = [analysis_started 3] /\
    invoked (trace w') = [] /\
    printed (trace w') = [] /\
    ctx w' !! "agent_analyses" = None.
Proof.
  eexists _, _. split; [apply analysis_context_stops|].
  split_and!; reflexivity.
Qed.


(** C4, at the failing input. With one persona configured, which would
    succeed, the analysis step raises right after its starting event: the
    only progress value is 30, the value 70 is not emitted, and the
    persona was not called. *)
Theorem fanout_never_emits_70 :
  exists ex w',
    @analyze_with_agents Demo.single Demo.fetched_event
      (Demo.analysis_context Demo.single) = (inl ex, w') /\
    exc_class ex = "TypeError" /\
    progress_values (trace w') = [30] /\
    occurrences 70 (progress_values (trace w')) = 0%nat /\
    invoked (trace w') = [].
Proof.
  eexists _, _. split; [apply analysis_context_stops|].
  split_and!; reflexivity.
Qed.

(** C2, as claimed, fails: the request with an empty identifier is
    rejected, but neither the start step nor the run raises a
    [ValidationError]. *)
Lemma empty_jira_id_error_is_not_ValidationError :
  ~ @rejected_with Demo.single "ValidationError"
      [("input", JObj Demo.empty_id_request)] new_world.
Proof.
  intros (ex & [Hstart | Hrun] & Hclass).
  - change (@start_jira_breakdown Demo.single
              [("input", JObj Demo.empty_id_request)] new_world)
      with (@inl exception JiraBreakdownEvent
              (ValueError "jira_id is required"), @new_world Demo.single)
      in Hstart.
    injection Hstart as <-. discriminate Hclass.
  - rewrite run_workflow_refused in Hrun.
    injection Hrun as <-. discriminate Hclass.
Qed.

(** C8, as claimed, fails: against a tracker in which only RHOAIENG-669
    resolves, the fetch of another identifier still returns a record. *)
Lemma fetch_returns_record_for_unknown_issue :
  ~ @fetch_fails_when_unresolved Demo.single
      (fun id => String.eqb id "RHOAIENG-669").
Proof.
  intros Hcontract.
  destruct (Hcontract "RHOAIENG-0" new_world eq_refl) as (msg & w' & Hfetch).
  discriminate Hfetch.
Qed.

(** ** The theorems at concrete inputs *)

(** The request with an empty identifier is rejected in the new world. *)
Lemma missing_jira_id_rejected_witness :
  dict_get "jira_id" Demo.empty_id_request = Some (JStr "") /\
  @start_jira_breakdown Demo.single [("input", JObj Demo.empty_id_request)]
    new_world
  = (inl (ValueError "jira_id is required"), new_world).
Proof.
  split; [reflexivity|].
  apply (@missing_jira_id_rejected Demo.single
           [("input", JObj Demo.empty_id_request)] Demo.empty_id_request new_world).
  - left. reflexivity.
  - right. reflexivity.
Defined.

(** The reference codec reads back the test request, and both forms of it
    are accepted with the event of its four fields. *)
Lemma string_input_same_as_object_witness :
  JsonCodec.loads (JsonCodec.dumps (JObj Demo.test_request))
  = inr (JObj Demo.test_request) /\
  @start_jira_breakdown Demo.single
    [("input", JObj Demo.test_request)] new_world
  = (inr Demo.test_event, new_world) /\
  @start_jira_breakdown Demo.single
    [("input", JStr (JsonCodec.dumps (JObj Demo.test_request)))] new_world
  = (inr Demo.test_event, new_world).
Proof.
  assert (JsonCodec.loads (JsonCodec.dumps (JObj Demo.test_request))
          = inr (JObj Demo.test_request)) as Hrt by (vm_compute; reflexivity).
  split; [exact Hrt|].
  destruct (@string_input_same_as_object Demo.single [] Demo.test_request
              new_world Hrt) as [_ Haccepted].
  apply (Haccepted "RHOAIENG-669"
           (Some "Additional context: This feature should improve ML model deployment experience")
           (Some "test_user") false);
    [reflexivity|discriminate|reflexivity..].
Defined.

(** The synthesis of the test request with an empty analysis map has an
    epic. *)
Lemma epics_never_empty_witness :
  exists resp w',
    @synthesize_breakdown Demo.single Demo.analyzed_event
      (Demo.synthesis_context Demo.single Demo.test_event [])
    = (inr resp, w') /\
    agent_analyses resp = [] /\
    epics resp <> [].
Proof.
  pose proof (synthesis_context_runs Demo.single Demo.test_event []) as Hrun.
  eexists _, _. split; [exact Hrun|]. split; [reflexivity|].
  destruct (@epics_never_empty Demo.single [] []
              (Demo.synthesis_context Demo.single Demo.test_event []))
    as (_ & _ & Hall & _).
  apply (Hall _ _ _ _ Hrun).
Defined.

(** The second story of the synthesis of the test request names the
    epic. *)
Lemma parent_epics_resolve_witness :
  exists resp w' story,
    @synthesize_breakdown Demo.single Demo.analyzed_event
      (Demo.synthesis_context Demo.single Demo.test_event [])
    = (inr resp, w') /\
    stories resp !! 1%nat = Some story /\
    parent_epic story = Some "Core Feature Implementation" /\
    exists epic, epic ∈ epics resp /\
                 title epic = "Core Feature Implementation".
Proof.
  pose proof (synthesis_context_runs Demo.single Demo.test_event []) as Hrun.
  eexists _, _, _. split; [exact Hrun|].
  split; [reflexivity|]. split; [reflexivity|].
  eapply (@parent_epics_resolve Demo.single _ _ _ _ _ _ Hrun).
  - apply elem_of_cons; right. apply elem_of_cons; left. reflexivity.
  - reflexivity.
Defined.

(** The request that asks for creation gets three identifiers, the one of
    the epic first; the test request gets none. *)
Lemma created_items_follow_flag_witness :
  (exists resp w',
     @synthesize_breakdown Demo.single Demo.analyzed_event
       (Demo.synthesis_context Demo.single Demo.create_event [])
     = (inr resp, w') /\
     exists ids,
       created_jira_items resp = Some ids /\
       one_id_per_item (epics resp) (stories resp) ids /\
       ids = ["RHOAIENG-1000"; "RHOAIENG-1001"; "RHOAIENG-1002"]) /\
  (exists resp w',
     @synthesize_breakdown Demo.single Demo.analyzed_event
       (Demo.synthesis_context Demo.single Demo.test_event [])
     = (inr resp, w') /\
     created_jira_items resp = None).
Proof.
  destruct (@created_items_follow_flag Demo.single [] [] new_world)
    as [_ Hflag].
  split.
  - pose proof (synthesis_context_runs Demo.single Demo.create_event [])
      as Hrun.
    eexists _, _. split; [exact Hrun|].
    destruct (Hflag _ Demo.create_event
                (Demo.synthesis_context Demo.single Demo.create_event [])
                _ _ eq_refl Hrun)
      as (ids & Hids & Hone).
    exists ids. split; [exact Hids|]. split; [exact Hone|].
    cbn [created_jira_items response_at Demo.create_event create_jira_items]
      in Hids.
    injection Hids as <-. vm_compute. reflexivity.
  - pose proof (synthesis_context_runs Demo.single Demo.test_event [])
      as Hrun.
    eexists _, _. split; [exact Hrun|].
    exact (Hflag _ Demo.test_event
             (Demo.synthesis_context Demo.single Demo.test_event [])
             _ _ eq_refl Hrun).
Defined.

(** A list as input has no [get]. *)
Lemma start_rejects_non_dict_witness :
  @decodes_to Demo.single Demo.list_input (JList [JInt 1]) /\
  (forall d, JList [JInt 1] <> JObj d) /\
  @start_jira_breakdown Demo.single Demo.list_input new_world
  = (inl (AttributeError "'list' object has no attribute 'get'"), new_world).
Proof.
  assert (@decodes_to Demo.single Demo.list_input (JList [JInt 1]))
    as Hdec by (left; split; [reflexivity|discriminate]).
  assert (forall d, JList [JInt 1] <> JObj d) as Hnd by discriminate.
  split; [exact Hdec|]. split; [exact Hnd|].
  apply (@start_rejects_non_dict Demo.single Demo.list_input
           (JList [JInt 1]) new_world Hdec Hnd).
Defined.

(** The failure of the request with an empty identifier is the third of
    the four kinds. *)
Lemma start_failure_modes_witness :
  @start_jira_breakdown Demo.single [("input", JObj Demo.empty_id_request)]
    new_world = (inl (ValueError "jira_id is required"), new_world) /\
  ((exists s, dict_get_default "input" (JObj [])
                [("input", JObj Demo.empty_id_request)] = JStr s /\
              @json_loads Demo.single s
              = inl (ValueError "jira_id is required")) \/
   (exists v, @decodes_to Demo.single
                [("input", JObj Demo.empty_id_request)] v /\
              (forall d, v <> JObj d) /\
              ValueError "jira_id is required"
              = AttributeError ("'" +:+ py_type_name v +:+
                                "' object has no attribute 'get'")) \/
   (exists d, @decodes_to Demo.single
                [("input", JObj Demo.empty_id_request)] (JObj d) /\
              truthy (dict_get_default "jira_id" (JStr "") d) = false /\
              ValueError "jira_id is required"
              = ValueError "jira_id is required") \/
   (exists d, @decodes_to Demo.single
                [("input", JObj Demo.empty_id_request)] (JObj d) /\
              truthy (dict_get_default "jira_id" (JStr "") d) = true /\
              ValueError "jira_id is required"
              = ValidationError "JiraBreakdownEvent")).
Proof.
  assert (@start_jira_breakdown Demo.single
            [("input", JObj Demo.empty_id_request)] new_world
          = (inl (ValueError "jira_id is required"), new_world)) as Hstart
    by reflexivity.
  split; [exact Hstart|].
  apply (@start_failure_modes Demo.single _ _ _ _ Hstart).
Defined.

(** The empty identifier is falsy. *)
Lemma falsy_jira_id_rejected_witness :
  @decodes_to Demo.single [("input", JObj Demo.empty_id_request)]
    (JObj Demo.empty_id_request) /\
  @start_jira_breakdown Demo.single [("input", JObj Demo.empty_id_request)]
    new_world
  = (inl (ValueError "jira_id is required"), new_world).
Proof.
  assert (@decodes_to Demo.single [("input", JObj Demo.empty_id_request)]
            (JObj Demo.empty_id_request)) as Hdec
    by (left; split; [reflexivity|discriminate]).
  split; [exact Hdec|].
  apply (@falsy_jira_id_rejected Demo.single _ _ new_world Hdec).
  apply elem_of_cons; right. apply elem_of_cons; left. reflexivity.
Defined.

(** The test request with one more key is accepted like the test
    request. *)
Lemma start_reads_four_fields_witness :
  @decodes_to Demo.single [("input", JObj Demo.test_request)]
    (JObj Demo.test_request) /\
  @decodes_to Demo.single [("input", JObj Demo.extended_request)]
    (JObj Demo.extended_request) /\
  same_request_fields Demo.test_request Demo.extended_request /\
  @start_jira_breakdown Demo.single
    [("input", JObj Demo.extended_request)] new_world
  = (inr Demo.test_event, new_world).
Proof.
  assert (@decodes_to Demo.single [("input", JObj Demo.test_request)]
            (JObj Demo.test_request)) as Hd
    by (left; split; [reflexivity|discriminate]).
  assert (@decodes_to Demo.single [("input", JObj Demo.extended_request)]
            (JObj Demo.extended_request)) as Hd'
    by (left; split; [reflexivity|discriminate]).
  assert (same_request_fields Demo.test_request Demo.extended_request)
    as Hsame by (repeat split; reflexivity).
  split; [exact Hd|]. split; [exact Hd'|]. split; [exact Hsame|].
  destruct (@start_reads_four_fields Demo.single _ _ _ _ new_world Hd Hd' Hsame)
    as [Hstart _].
  rewrite <- Hstart. apply test_request_accepted.
Defined.

(** The bare request gets the defaults. *)
Lemma start_applies_defaults_witness :
  @decodes_to Demo.single [("input", JObj Demo.bare_request)]
    (JObj Demo.bare_request) /\
  dict_get "jira_id" Demo.bare_request = Some (JStr "RHOAIENG-669") /\
  @start_jira_breakdown Demo.single [("input", JObj Demo.bare_request)]
    new_world = (inr Demo.bare_event, new_world).
Proof.
  assert (@decodes_to Demo.single [("input", JObj Demo.bare_request)]
            (JObj Demo.bare_request)) as Hdec
    by (left; split; [reflexivity|discriminate]).
  split; [exact Hdec|]. split; [reflexivity|].
  apply (@start_applies_defaults Demo.single _ _ new_world "RHOAIENG-669" Hdec).
  - reflexivity.
  - discriminate.
  - apply elem_of_cons; left. reflexivity.
  - apply elem_of_cons; left. reflexivity.
  - reflexivity.
Defined.

(** The rejection of the list input leaves the new world. *)
Lemma start_step_has_no_effect_witness :
  @start_jira_breakdown Demo.single Demo.list_input new_world
  = (inl (AttributeError "'list' object has no attribute 'get'"), new_world) /\
  trace (@new_world Demo.single) = [].
Proof.
  assert (@start_jira_breakdown Demo.single Demo.list_input new_world
          = (inl (AttributeError "'list' object has no attribute 'get'"),
             new_world)) as Hstart by reflexivity.
  split; [exact Hstart|].
  destruct (@start_step_has_no_effect Demo.single _ _ _ _ Hstart)
    as (_ & Htrace & _).
  exact Htrace.
Defined.

(** The analysis of the test request over three personas stops after its
    starting event. *)
Lemma analysis_stops_at_first_send_event_witness :
  ctx (Demo.analysis_context Demo.one_failing) !! "jira_details"
    = Some (CtxDetails (@fetched_details Demo.one_failing "RHOAIENG-669")) /\
  ctx (Demo.analysis_context Demo.one_failing) !! "original_event"
    = Some (CtxEvent Demo.test_event) /\
  is_Some (dict_get "id" (@fetched_details Demo.one_failing "RHOAIENG-669")) /\
  is_Some (dict_get "summary"
             (@fetched_details Demo.one_failing "RHOAIENG-669")) /\
  exists w',
    @analyze_with_agents Demo.one_failing Demo.fetched_event
      (Demo.analysis_context Demo.one_failing)
    = (inl (TypeError "object NoneType can't be used in 'await' expression"),
       w') /\
    trace w' = [SendEvent (analysis_started 3)] /\
    ctx w' = ctx (Demo.analysis_context Demo.one_failing).
Proof.
  pose proof (analysis_context_details Demo.one_failing) as Hd.
  pose proof (analysis_context_event Demo.one_failing) as He.
  assert (is_Some (dict_get "id"
                     (@fetched_details Demo.one_failing "RHOAIENG-669")))
    as Hid by (by eexists).
  assert (is_Some (dict_get "summary"
                     (@fetched_details Demo.one_failing "RHOAIENG-669")))
    as Hsum by (by eexists).
  split_and!; [exact Hd|exact He|exact Hid|exact Hsum|].
  destruct (@analysis_stops_at_first_send_event Demo.one_failing
              Demo.fetched_event Demo.test_event _ _ Hd He Hid Hsum)
    as (w' & Hrun & Htr & _ & _ & Hctx & _).
  exists w'. split_and!; [exact Hrun|exact Htr|exact Hctx].
Defined.

(** The loop over three personas, the second of which raises. *)
Lemma persona_loop_isolates_failures_witness :
  NoDup (@get_agent_personas Demo.one_failing).*1 /\
  exists tr analyses,
    @analyze_loop Demo.one_failing "feature" 3 get_agent_personas [] 0
      new_world = (inr (analyses, 2), add_trace tr new_world) /\
    analyses.*1 = ["UX_RESEARCHER"; "PXE"] /\
    invoked tr = ["UX_RESEARCHER"; "BACKEND_ENG"; "PXE"] /\
    length (printed tr) = 3%nat.
Proof.
  assert (NoDup (@get_agent_personas Demo.one_failing).*1) as Hnd.
  { apply (bool_decide_unpack _). vm_compute. reflexivity. }
  split; [exact Hnd|].
  destruct (@persona_loop_isolates_failures Demo.one_failing "feature" 3
              get_agent_personas new_world Hnd)
    as (tr & Hrun & Hinv & Hpr & _).
  eexists tr, _. split_and!; [exact Hrun| |exact Hinv|exact Hpr].
  vm_compute. reflexivity.
Defined.

(** One and two of three personas: 43 and 56. *)
Lemma progress_arithmetic_exact_witness :
  1 <= 3 <= Z.of_nat max_personas /\ 0 <= 1 <= 2 /\ 2 <= 3 /\
  fanout_progress 1 3 = inr 43 /\
  fanout_progress 2 3 = inr 56.
Proof.
  assert (1 <= 3 <= Z.of_nat max_personas) as Ht by (unfold max_personas; lia).
  assert (0 <= 1 <= 2) as Hc by lia.
  assert (2 <= 3) as Hc' by lia.
  split_and!; [lia..| |];
    destruct (progress_arithmetic_exact 1 2 3 Ht Hc Hc') as (H1 & H2 & _).
  - exact H1.
  - exact H2.
Defined.

(** Details without an identifier stop the analysis step. *)
Lemma analysis_needs_id_and_summary_witness :
  ctx (Demo.stored_world Demo.single Demo.details_without_id [])
    !! "jira_details" = Some (CtxDetails Demo.details_without_id) /\
  ctx (Demo.stored_world Demo.single Demo.details_without_id [])
    !! "original_event" = Some (CtxEvent Demo.test_event) /\
  dict_get "id" Demo.details_without_id = None /\
  @analyze_with_agents Demo.single Demo.fetched_event
    (Demo.stored_world Demo.single Demo.details_without_id [])
  = (inl (KeyError "id"),
     Demo.stored_world Demo.single Demo.details_without_id []).
Proof.
  assert (ctx (Demo.stored_world Demo.single Demo.details_without_id [])
            !! "jira_details" = Some (CtxDetails Demo.details_without_id))
    as Hd by reflexivity.
  assert (ctx (Demo.stored_world Demo.single Demo.details_without_id [])
            !! "original_event" = Some (CtxEvent Demo.test_event))
    as He by reflexivity.
  assert (dict_get "id" Demo.details_without_id = None) as Hid
    by reflexivity.
  split_and!; [exact Hd|exact He|exact Hid|].
  apply (@analysis_needs_id_and_summary Demo.single Demo.fetched_event
           Demo.test_event Demo.details_without_id "id" _ Hd He).
  left. split; [reflexivity|exact Hid].
Defined.

(** The feature description of the placeholder record, with and without
    an additional description. *)
Lemma additional_context_is_appended_witness :
  "more" <> "" /\
  @_prepare_feature_description Demo.single
    (@fetched_details Demo.single "RHOAIENG-669") None new_world
  = (inr (@feature_description_of Demo.single Demo.bare_event), new_world) /\
  @_prepare_feature_description Demo.single
    (@fetched_details Demo.single "RHOAIENG-669") (Some "more") new_world
  = (inr (@feature_description_of Demo.single Demo.bare_event
          +:+ newline +:+ newline +:+ "Additional Context: more"), new_world).
Proof.
  assert ("more" <> "") as Ha by discriminate.
  assert (@_prepare_feature_description Demo.single
            (@fetched_details Demo.single "RHOAIENG-669") None new_world
          = (inr (@feature_description_of Demo.single Demo.bare_event),
             new_world)) as Hbase by reflexivity.
  split; [exact Ha|]. split; [exact Hbase|].
  apply (@additional_context_is_appended Demo.single _ _ _ _ Ha Hbase).
Defined.

(** Details without a description. *)
Lemma missing_description_has_default_witness :
  dict_get "description" Demo.details_without_description = None /\
  @_prepare_feature_description Demo.single
    Demo.details_without_description None new_world
  = @_prepare_feature_description Demo.single
      (Demo.details_without_description ++
         [("description", JStr "No description")])%list None new_world.
Proof.
  assert (dict_get "description" Demo.details_without_description = None)
    as Hnone by reflexivity.
  split; [exact Hnone|].
  apply (@missing_description_has_default Demo.single _ None new_world Hnone).
Defined.

(** Stored details without a summary: the response has the empty
    summary. *)
Lemma synthesis_echoes_context_witness :
  start_time_in
    (Demo.stored_world Demo.single Demo.details_without_summary
       [("PXE", "kept")])
    (@loop_time Demo.single 0) /\
  dict_get "summary" Demo.details_without_summary = None /\
  exists resp w',
    @synthesize_breakdown Demo.single
      {| stage := "analysis_complete"; progress := 70;
         message := "Multi-agent analysis completed";
         completed_agents := 1; total_agents := 1 |}
      (Demo.stored_world Demo.single Demo.details_without_summary
         [("PXE", "kept")])
    = (inr resp, w') /\
    agent_analyses resp = [("PXE", "kept")] /\
    original_summary resp = "".
Proof.
  assert (start_time_in
            (Demo.stored_world Demo.single
               Demo.details_without_summary [("PXE", "kept")])
            (@loop_time Demo.single 0)) as Hx
    by (left; split; reflexivity).
  assert (dict_get "summary" Demo.details_without_summary = None)
    as Hs by reflexivity.
  split; [exact Hx|]. split; [exact Hs|].
  destruct (@synthesis_echoes_context Demo.single
              {| stage := "analysis_complete"; progress := 70;
                 message := "Multi-agent analysis completed";
                 completed_agents := 1; total_agents := 1 |}
              Demo.test_event Demo.details_without_summary
              [("PXE", "kept")] _ _ "" Hx eq_refl eq_refl eq_refl
              (or_intror (conj Hs eq_refl)))
    as (resp & Hrun & Ha & _ & Hsum & _).
  eexists resp, _. split_and!; [exact Hrun|exact Ha|exact Hsum].
Defined.

(** The analysis step in the new world. *)
Lemma analysis_needs_fetched_details_witness :
  ctx (@new_world Demo.single) !! "jira_details" = None /\
  exists ex,
    @analyze_with_agents Demo.single Demo.fetched_event new_world
    = (inl ex, new_world) /\
    exc_class ex = "ValueError".
Proof.
  assert (ctx (@new_world Demo.single) !! "jira_details" = None) as Hd
    by reflexivity.
  split; [exact Hd|].
  apply (@analysis_needs_fetched_details Demo.single Demo.fetched_event
           new_world Hd).
Defined.

(** The summary of the breakdown the synthesis makes, rendered by the
    reference collaborators. *)
Lemma summary_exact_text_witness :
  @repr_component_set Demo.single
    (all_components (@synthesized_epics Demo.single)
       (@synthesized_stories Demo.single))
  = "['backend', 'frontend'" +:+ "]" /\
  is_py_space "]" = false /\
  @_generate_breakdown_summary Demo.single
    (@synthesized_epics Demo.single) (@synthesized_stories Demo.single) =
  "Feature breakdown completed:" +:+ newline +:+
  "- 1 epic(s) identified" +:+ newline +:+
  "- 2 story/stories created" +:+ newline +:+
  "- Total estimated story points: 8" +:+ newline +:+
  "- Components involved: ['backend', 'frontend']".
Proof.
  assert (@repr_component_set Demo.single
            (all_components (@synthesized_epics Demo.single)
               (@synthesized_stories Demo.single))
          = "['backend', 'frontend'" +:+ "]") as Hr
    by (vm_compute; reflexivity).
  assert (is_py_space "]" = false) as Hc by reflexivity.
  split; [exact Hr|]. split; [exact Hc|].
  etrans; [exact (@summary_exact_text Demo.single _ _ _ "]" Hr Hc)|].
  vm_compute. reflexivity.
Defined.
